(** * wesher: the cluster membership layer (package [cluster])

    A shallow embedding of [cluster/cluster.go]: the key bootstrap
    ([computeClusterKey]), the constructor [New], and the methods [Name],
    [Join], [Leave], [Update] and the body of the goroutine started by
    [Members]; and of the two arms of the run loop of [main] that consume
    them, the one for a membership snapshot and the one for termination.

    Go values are represented as follows.
    - [[]byte] and [net.IP] are lists of bytes; the nil slice and the empty
      slice are both [[]] (the code only ever asks for [len]).
    - [int] and [time.Duration] are [Z]; counts that are never negative are
      [nat].
    - a Go result pair [(v, err)] is a pair whose second component is
      [option error], [None] being the nil error.
    - a pointer that may be nil is an [option].
    - calls into imported packages ([net], [crypto/rand], [memberlist], the
      sibling files of the package) are methods of type classes, so every
      statement holds for any behaviour of those packages.
    - what a method does to the outside (engine calls, state saves, channel
      sends, prints) is recorded, in program order, in a list of [Effect]s. *)

From Stdlib Require Import List String Ascii ZArith Lia Bool.
From Stdlib Require Import Strings.Byte.
Import ListNotations.

Set Implicit Arguments.

Local Open Scope string_scope.
Local Open Scope list_scope.

Definition bytes := list byte.

(** ** Go errors *)

Inductive error : Type :=
| errors_New (msg : string)
    (* errors.New(msg) *)
| fmt_Errorf (context : string) (cause : error)
    (* fmt.Errorf(context + ": %w", cause) *)
| foreign (what : string).
    (* an error value made by an imported package *)

(** A method either returns or panics. *)
Inductive outcome (A : Type) : Type :=
| Returns (a : A)
| Panics (why : string).
Arguments Panics {A} why.

(** [time.Duration] counts nanoseconds. *)
Module time.
Definition Duration := Z.
Definition Second : Duration := 1000000000%Z.
End time.

(** ** Package [net] *)

Module net.
Definition IP := bytes.

Class Resolver : Type := {
  (* net.ParseIP: nil when the text is not a literal address *)
  ParseIP : string -> option IP;
  (* net.LookupIP *)
  LookupIP : string -> list IP * option error;
  (* IP.Equal, receiver first *)
  Equal : IP -> IP -> bool;
  (* IP.String *)
  String : IP -> string
}.
End net.

(** ** Package [common]: the node descriptor *)

Module common.
(** The fields [cluster.go] reads and writes.  The fields decoded from
    [Meta] are left at their zero value by the composite literal in
    [Members] and play no part here. *)
Record Node : Type := {
  Name : string;
  Addr : net.IP;
  Meta : bytes
}.
End common.

(** ** The persisted state (type [state] of the package)

    The two fields [cluster.go] uses: the shared key and the last known
    peers. *)

Record state : Type := {
  ClusterKey : bytes;
  Nodes : list common.Node
}.

Definition set_ClusterKey (s : state) (k : bytes) : state :=
  {| ClusterKey := k; Nodes := Nodes s |}.

Definition set_Nodes (s : state) (ns : list common.Node) : state :=
  {| ClusterKey := ClusterKey s; Nodes := ns |}.

(** ** Effects *)

Inductive Effect : Type :=
| SaveState (name : string) (s : state)        (* s.save(name) *)
| MlJoin (targets : list string)               (* ml.Join(targets) *)
| MlLeave (timeout : time.Duration)            (* ml.Leave(timeout) *)
| MlShutdown                                   (* ml.Shutdown() *)
| MlUpdateNode (timeout : time.Duration)       (* ml.UpdateNode(timeout) *)
| Publish (nodes : list common.Node)           (* changes <- nodes *)
| LogInfo (msg : string)                       (* logrus.Infof *)
| Print (msg : string).                        (* fmt.Printf *)

(** ** The process environment of the key bootstrap *)

Class Platform : Type := {
  (* crypto/rand.Read(b): the contents of b after the call, n and err.
     A callee cannot change the length of the caller's slice. *)
  rand_Read : bytes -> bytes * (nat * option error);
  rand_Read_length : forall b, List.length (fst (rand_Read b)) = List.length b;
  (* isatty.IsTerminal(os.Stdout.Fd()) *)
  stdout_IsTerminal : bool;
  (* base64.StdEncoding.EncodeToString *)
  base64_EncodeToString : bytes -> string
}.

(** KeyLen is the fixed length of cluster keys, must be checked by callers *)
Definition KeyLen : nat := 32.

(** [make([]byte, n)] *)
Definition make_bytes (n : nat) : bytes := repeat x00 n.

Section KeyBootstrap.
Context {P : Platform}.

(** [computeClusterKey(state, clusterKey)]: the returned pair, the state
    the pointer refers to afterwards, and what was printed. *)
Definition computeClusterKey (st : state) (clusterKey : bytes)
  : (bytes * option error) * state * list Effect :=
  let clusterKey :=
    if Nat.eqb (List.length clusterKey) 0 then ClusterKey st else clusterKey in
  if Nat.eqb (List.length clusterKey) 0 then
    let clusterKey := make_bytes KeyLen in
    let '(clusterKey, (_, err)) := rand_Read clusterKey in
    match err with
    | Some e => (([], Some (fmt_Errorf "reading random source" e)), st, [])
    | None =>
        let out :=
          if stdout_IsTerminal
          then [Print (String.append "new cluster key generated: "
                         (String.append (base64_EncodeToString clusterKey)
                                        (String (ascii_of_nat 10) EmptyString)))]
          else [] in
        ((clusterKey, None), set_ClusterKey st clusterKey, out)
    end
  else
    ((clusterKey, None), set_ClusterKey st clusterKey, []).

Definition returned_key (r : (bytes * option error) * state * list Effect) : bytes :=
  fst (fst (fst r)).
Definition returned_err (r : (bytes * option error) * state * list Effect) : option error :=
  snd (fst (fst r)).
Definition state_after (r : (bytes * option error) * state * list Effect) : state :=
  snd (fst r).
Definition printed (r : (bytes * option error) * state * list Effect) : list Effect :=
  snd r.

End KeyBootstrap.

(** ** Package [memberlist]: the gossip engine *)

Module memberlist.
Record Node : Type := {
  Name : string;
  Addr : net.IP;
  Meta : bytes
}.

Inductive NodeEventType : Type := NodeJoin | NodeLeave | NodeUpdate.

Record NodeEvent : Type := {
  Event : NodeEventType;
  EventNode : Node       (* field Node *)
}.

(** [delegateNode{node}] of the package, as stored in the configuration. *)
Record delegateNode : Type := { delegate_of : option common.Node }.

(** [make(chan NodeEvent, n)] is represented by its capacity: what the
    engine sends on it reaches [Members] as its list of deliveries. *)
Record chan : Type := { capacity : nat }.

Record ChannelEventDelegate : Type := { Ch : chan }.

(** The fields of [memberlist.Config] that the package sets (the log
    writer apart). *)
Record Config : Type := {
  ConfigName : string;      (* field Name *)
  SecretKey : bytes;
  BindAddr : string;
  BindPort : Z;
  AdvertiseAddr : string;
  AdvertisePort : Z;
  Conflict : option delegateNode;
  Delegate : option delegateNode;
  Events : option ChannelEventDelegate
}.

(** The engine, over its own state [ML].  The engine keeps the pointer to
    its configuration, so the one call made after the configuration was
    changed ([UpdateNode]) receives the configuration as it stands. *)
Class Engine (ML : Type) : Type := {
  DefaultWANConfig : Config;
  Create : Config -> ML + error;
  LocalNode : ML -> Node;
  Members : ML -> list Node;
  NumMembers : ML -> nat;
  Join : ML -> list string -> ML * (nat * option error);
  Leave : ML -> time.Duration -> ML * option error;
  Shutdown : ML -> ML * option error;
  UpdateNode : ML -> Config -> time.Duration -> ML * option error
}.
End memberlist.

(** The state file of the package: [loadState(state, name)] fills the state
    from the file kept for that name.  [New] drops its result, so only the
    state it leaves matters; it is a parameter here. *)
Class StateStore : Type := {
  loadState : state -> string -> state
}.

(** ** The cluster *)

Section ClusterType.
Variable ML : Type.

Record Cluster : Type := {
  name : string;
  ml : ML;
  mlConfig : memberlist.Config;
  localNode : option common.Node;
  LocalName : string;
  cstate : state;                (* field state *)
  events : memberlist.chan
}.

Definition set_ml (c : Cluster) (m : ML) : Cluster :=
  {| name := name c; ml := m; mlConfig := mlConfig c;
     localNode := localNode c; LocalName := LocalName c;
     cstate := cstate c; events := events c |}.

Definition set_mlConfig (c : Cluster) (cfg : memberlist.Config) : Cluster :=
  {| name := name c; ml := ml c; mlConfig := cfg;
     localNode := localNode c; LocalName := LocalName c;
     cstate := cstate c; events := events c |}.

Definition set_localNode (c : Cluster) (n : option common.Node) : Cluster :=
  {| name := name c; ml := ml c; mlConfig := mlConfig c;
     localNode := n; LocalName := LocalName c;
     cstate := cstate c; events := events c |}.

Definition set_cstate (c : Cluster) (s : state) : Cluster :=
  {| name := name c; ml := ml c; mlConfig := mlConfig c;
     localNode := localNode c; LocalName := LocalName c;
     cstate := s; events := events c |}.

(** *** Methods run on the cluster and leave a trace *)

Definition Act (A : Type) : Type := Cluster -> A * Cluster * list Effect.

Definition ret {A} (a : A) : Act A := fun c => (a, c, []).

Definition bind {A B} (m : Act A) (k : A -> Act B) : Act B :=
  fun c =>
    let '(a, c1, t1) := m c in
    let '(b, c2, t2) := k a c1 in
    (b, c2, t1 ++ t2).

Definition this : Act Cluster := fun c => (c, c, []).
Definition assign (f : Cluster -> Cluster) : Act unit := fun c => (tt, f c, []).
Definition emit (e : Effect) : Act unit := fun c => (tt, c, [e]).

Definition result_of {A} (r : A * Cluster * list Effect) : A := fst (fst r).
Definition cluster_of {A} (r : A * Cluster * list Effect) : Cluster := snd (fst r).
Definition trace_of {A} (r : A * Cluster * list Effect) : list Effect := snd r.
End ClusterType.

Arguments ret {ML A} a.
Arguments bind {ML A B} m k.
Arguments this {ML}.
Arguments assign {ML} f.
Arguments emit {ML} e.

Declare Scope act_scope.
Delimit Scope act_scope with act.
Notation "x <- m ;; k" := (bind m (fun x => k))
  (at level 61, m at next level, right associativity) : act_scope.
Notation "m ;; k" := (bind m (fun _ => k))
  (at level 61, right associativity) : act_scope.

Local Open Scope act_scope.

Section Methods.
Context {R : net.Resolver} {ML : Type} {E : memberlist.Engine ML}
        {S : StateStore} {P : Platform}.

(** *** Calls that leave the package *)

(** [c.state.save(c.name)]; every caller in this file drops its result. *)
Definition save : Act ML unit :=
  c <- this ;; emit (SaveState (name c) (cstate c)).

Definition mlJoin (targets : list string) : Act ML (nat * option error) :=
  c <- this ;;
  let '(m, r) := memberlist.Join (ml c) targets in
  assign (fun c => set_ml c m) ;; emit (MlJoin targets) ;; ret r.

Definition mlLeave (timeout : time.Duration) : Act ML (option error) :=
  c <- this ;;
  let '(m, r) := memberlist.Leave (ml c) timeout in
  assign (fun c => set_ml c m) ;; emit (MlLeave timeout) ;; ret r.

Definition mlShutdown : Act ML (option error) :=
  c <- this ;;
  let '(m, r) := memberlist.Shutdown (ml c) in
  assign (fun c => set_ml c m) ;; emit MlShutdown ;; ret r.

Definition mlUpdateNode (timeout : time.Duration) : Act ML (option error) :=
  c <- this ;;
  let '(m, r) := memberlist.UpdateNode (ml c) (mlConfig c) timeout in
  assign (fun c => set_ml c m) ;; emit (MlUpdateNode timeout) ;; ret r.

(** *** New *)

Definition New (name : string) (init : bool) (clusterKey : bytes)
           (bindAddr : string) (bindPort : Z)
           (advertiseAddr : string) (advertisePort : Z)
           (useIPAsName : bool)
  : (option (Cluster ML) * option error) * list Effect :=
  let st := {| ClusterKey := []; Nodes := [] |} in
  let st := if negb init then loadState st name else st in
  let '((clusterKey, err), st, out) := computeClusterKey st clusterKey in
  match err with
  | Some e => ((None, Some (fmt_Errorf "computing cluster key" e)), out)
  | None =>
      let d := memberlist.DefaultWANConfig in
      let mlConfig :=
        {| memberlist.ConfigName :=
             if useIPAsName && negb (String.eqb bindAddr "0.0.0.0")
             then bindAddr else memberlist.ConfigName d;
           memberlist.SecretKey := clusterKey;
           memberlist.BindAddr := bindAddr;
           memberlist.BindPort := bindPort;
           memberlist.AdvertiseAddr := advertiseAddr;
           memberlist.AdvertisePort := advertisePort;
           memberlist.Conflict := memberlist.Conflict d;
           memberlist.Delegate := memberlist.Delegate d;
           memberlist.Events := memberlist.Events d |} in
      match memberlist.Create mlConfig with
      | inr e => ((None, Some (fmt_Errorf "creating memberlist" e)), out)
      | inl m =>
          ((Some {| name := name;
                    ml := m;
                    mlConfig := mlConfig;
                    localNode := None;
                    LocalName := memberlist.Name (memberlist.LocalNode m);
                    events := {| memberlist.capacity := 100 |};
                    cstate := st |},
            None), out)
      end
  end.

(** *** Name *)

Definition Name (c : Cluster ML) : outcome string :=
  match localNode c with
  | Some n => Returns (common.Name n)
  | None => Panics "invalid memory address or nil pointer dereference"
  end.

(** *** Join *)

(** First loop: resolve hostnames. *)
Definition resolveHost (addrs : list net.IP) (host : string) : list net.IP :=
  match net.ParseIP host with
  | Some addr => addrs ++ [addr]
  | None =>
      match net.LookupIP host with
      | (ips, None) => addrs ++ ips
      | (_, Some _) => addrs
      end
  end.

Definition resolveHosts (hosts : list string) : list net.IP :=
  fold_left resolveHost hosts [].

(** Second block: add known hosts if necessary. *)
Definition addKnownHosts (st : state) (addrs : list net.IP) : list net.IP :=
  if Nat.eqb (List.length addrs) 0
  then fold_left (fun addrs n => addrs ++ [common.Addr n]) (Nodes st) addrs
  else addrs.

(** Inner loop of [AddrLoop]: is some member at this address? *)
Fixpoint isMember (members : list memberlist.Node) (addr : net.IP) : bool :=
  match members with
  | [] => false
  | member :: rest =>
      if net.Equal (memberlist.Addr member) addr then true
      else isMember rest addr
  end.

(** [AddrLoop]: filter out addresses that are already members. *)
Definition filterTargets (members : list memberlist.Node)
           (addrs : list net.IP) : list string :=
  fold_left
    (fun targets addr =>
       if isMember members addr then targets
       else targets ++ [net.String addr])
    addrs [].

(** The list handed to the engine, as a function of the cluster. *)
Definition joinCandidates (c : Cluster ML) (hosts : list string) : list net.IP :=
  addKnownHosts (cstate c) (resolveHosts hosts).

Definition joinTargets (c : Cluster ML) (hosts : list string) : list string :=
  filterTargets (memberlist.Members (ml c)) (joinCandidates c hosts).

Definition Join (hosts : list string) : Act ML (option error) :=
  c <- this ;;
  let addrs := resolveHosts hosts in
  let addrs := addKnownHosts (cstate c) addrs in
  let members := memberlist.Members (ml c) in
  let targets := filterTargets members addrs in
  r <- mlJoin targets ;;
  match snd r with
  | Some err => ret (Some (fmt_Errorf "joining cluster" err))
  | None =>
      c <- this ;;
      if Nat.ltb 0 (List.length targets)
         && Nat.ltb (memberlist.NumMembers (ml c)) 2
      then ret (Some (errors_New "could not join to any of the provided addresses"))
      else ret None
  end.

(** *** Leave *)

Definition Leave : Act ML unit :=
  save ;;
  mlLeave (10 * time.Second)%Z ;;
  mlShutdown ;;
  ret tt.

(** *** Update *)

Definition Update (node : option common.Node) : Act ML unit :=
  assign (fun c => set_localNode c node) ;;
  c <- this ;;
  let delegate := {| memberlist.delegate_of := localNode c |} in
  let cfg := mlConfig c in
  assign (fun c => set_mlConfig c
    {| memberlist.ConfigName := memberlist.ConfigName cfg;
       memberlist.SecretKey := memberlist.SecretKey cfg;
       memberlist.BindAddr := memberlist.BindAddr cfg;
       memberlist.BindPort := memberlist.BindPort cfg;
       memberlist.AdvertiseAddr := memberlist.AdvertiseAddr cfg;
       memberlist.AdvertisePort := memberlist.AdvertisePort cfg;
       memberlist.Conflict := Some delegate;
       memberlist.Delegate := Some delegate;
       memberlist.Events := Some {| memberlist.Ch := events c |} |}) ;;
  mlUpdateNode (1 * time.Second)%Z ;;
  ret tt.

(** *** Members *)

(** The snapshot loop over the engine's roster. *)
Definition snapshot (c : Cluster ML) : list common.Node :=
  fold_left
    (fun nodes n =>
       if String.eqb (memberlist.Name n) (LocalName c) then nodes
       else nodes ++ [{| common.Name := memberlist.Name n;
                         common.Addr := memberlist.Addr n;
                         common.Meta := memberlist.Meta n |}])
    (memberlist.Members (ml c)) [].

Definition eventVerb (t : memberlist.NodeEventType) : string :=
  match t with
  | memberlist.NodeJoin => "joined"
  | memberlist.NodeUpdate => "updated"
  | memberlist.NodeLeave => "left"
  end.

(** One turn of the goroutine's loop, for the event just received. *)
Definition onEvent (event : memberlist.NodeEvent) : Act ML unit :=
  c <- this ;;
  if String.eqb (memberlist.Name (memberlist.EventNode event)) (LocalName c)
  then ret tt
  else
    emit (LogInfo (String.append "node "
            (String.append (memberlist.Name (memberlist.EventNode event))
               (String.append " " (eventVerb (memberlist.Event event)))))) ;;
    let nodes := snapshot c in
    assign (fun c => set_cstate c (set_Nodes (cstate c) nodes)) ;;
    emit (Publish nodes) ;;
    save.

(** The engine runs beside the goroutine: each event arrives together
    with the engine as it stands when the event is handled. *)
Record Delivery : Type := {
  delivered : memberlist.NodeEvent;
  engine_then : ML
}.

(** The goroutine of [Members] over the deliveries it gets; with none
    left it waits on the channel. *)
Fixpoint Members (deliveries : list Delivery) : Act ML unit :=
  match deliveries with
  | [] => ret tt
  | d :: rest =>
      assign (fun c => set_ml c (engine_then d)) ;;
      onEvent (delivered d) ;;
      Members rest
  end.

(** What the consumer of the channel returned by [Members] receives. *)
Definition published (t : list Effect) : list (list common.Node) :=
  flat_map (fun e => match e with Publish ns => [ns] | _ => [] end) t.

End Methods.

(** ** Reference forms of the loops

    The loops above append to a slice; these say the same with the list
    library, and the theorems below compare the two. *)

Section ReferenceForms.
Context {R : net.Resolver}.

(** The addresses one target contributes. *)
Definition addressesOf (host : string) : list net.IP :=
  match net.ParseIP host with
  | Some addr => [addr]
  | None =>
      match net.LookupIP host with
      | (ips, None) => ips
      | (_, Some _) => []
      end
  end.

(** A target that is a literal address or whose lookup succeeds. *)
Definition resolvable (host : string) : bool :=
  match net.ParseIP host with
  | Some _ => true
  | None =>
      match snd (net.LookupIP host) with
      | None => true
      | Some _ => false
      end
  end.

(** Some member's address equals [addr]. *)
Definition atMember (members : list memberlist.Node) (addr : net.IP) : bool :=
  existsb (fun member => net.Equal (memberlist.Addr member) addr) members.
End ReferenceForms.

Definition toCommon (n : memberlist.Node) : common.Node :=
  {| common.Name := memberlist.Name n;
     common.Addr := memberlist.Addr n;
     common.Meta := memberlist.Meta n |}.

Definition notNamed (local : string) (n : memberlist.Node) : bool :=
  negb (String.eqb (memberlist.Name n) local).

Section MembersForms.
Context {ML : Type} {E : memberlist.Engine ML}.

(** The state the goroutine keeps after a forwarded event. *)
Definition recorded (c : Cluster ML) : state :=
  set_Nodes (cstate c) (snapshot c).

(** The snapshot a delivery leads to, if it is forwarded. *)
Definition forwarded (local : string) (d : Delivery) : list (list common.Node) :=
  if String.eqb (memberlist.Name (memberlist.EventNode (delivered d))) local
  then []
  else [map toCommon (filter (notNamed local) (memberlist.Members (engine_then d)))].
End MembersForms.

(** ** Reading a trace *)

(** The saves of a trace, in order: the name and the state handed over. *)
Definition saved (t : list Effect) : list (string * state) :=
  flat_map (fun e => match e with SaveState n s => [(n, s)] | _ => [] end) t.

(** The key the engine is configured with is the key the state holds. *)
Definition keyConsistent {ML : Type} (c : Cluster ML) : Prop :=
  memberlist.SecretKey (mlConfig c) = ClusterKey (cstate c).

(** The line printed for a freshly generated key. *)
Definition disclosure {P : Platform} (key : bytes) : Effect :=
  Print (String.append "new cluster key generated: "
           (String.append (base64_EncodeToString key)
                          (String (ascii_of_nat 10) EmptyString))).

(** The configuration [New] hands to [memberlist.Create]. *)
Definition newConfig {ML : Type} {E : memberlist.Engine ML}
           (key : bytes) (bindAddr : string) (bindPort : Z)
           (advertiseAddr : string) (advertisePort : Z) (useIPAsName : bool)
  : memberlist.Config :=
  let d := @memberlist.DefaultWANConfig ML E in
  {| memberlist.ConfigName :=
       if useIPAsName && negb (String.eqb bindAddr "0.0.0.0")
       then bindAddr else memberlist.ConfigName d;
     memberlist.SecretKey := key;
     memberlist.BindAddr := bindAddr;
     memberlist.BindPort := bindPort;
     memberlist.AdvertiseAddr := advertiseAddr;
     memberlist.AdvertisePort := advertisePort;
     memberlist.Conflict := memberlist.Conflict d;
     memberlist.Delegate := memberlist.Delegate d;
     memberlist.Events := memberlist.Events d |}.

(** ** The agent's run loop (package [main])

    Two arms of the [select] in [main]: the one that handles a membership
    snapshot and the one that handles a termination signal.  The packages
    they call ([common], [wg], [etchosts], [os/exec]) are a type class;
    every method stands for the outcome of the call at the time it is
    made, and neither arm makes the same call twice on the same input.
    A log line is recorded by its level and its format string as written
    in the source. *)

(** [net.IPNet] *)
Record IPNet : Type := {
  IP : net.IP;
  Mask : bytes
}.

(** [common.Node] as [DecodeMeta] leaves it: the descriptor together with
    the fields decoded from its [Meta]. *)
Record DecodedNode : Type := {
  descriptor : common.Node;
  OverlayAddr : IPNet;
  PubKey : string;
  Routes : list IPNet
}.

(** [map[string][]string], kept as an association list with one entry per
    key. *)
Definition hostsMap : Type := list (string * list string).

(** [m[k] = v] *)
Fixpoint hosts_set (k : string) (v : list string) (m : hostsMap) : hostsMap :=
  match m with
  | [] => [(k, v)]
  | (k', v') :: rest =>
      if String.eqb k k' then (k, v) :: rest
      else (k', v') :: hosts_set k v rest
  end.

(** [m[k]] *)
Fixpoint hosts_get (k : string) (m : hostsMap) : option (list string) :=
  match m with
  | [] => None
  | (k', v') :: rest => if String.eqb k k' then Some v' else hosts_get k rest
  end.

Class Collaborators : Type := {
  (* node.DecodeMeta(): the node with its decoded fields, or the error *)
  DecodeMeta : common.Node -> DecodedNode + error;
  (* wgstate.SetUpInterface(nodes, routedNets) *)
  SetUpInterface : list DecodedNode -> list IPNet -> option error;
  (* wgstate.DownInterface() *)
  DownInterface : option error;
  (* hostsFile.WriteEntries(hosts) *)
  WriteEntries : hostsMap -> option error;
  (* exec.LookPath(file) *)
  LookPath : string -> string * option error;
  (* (&exec.Cmd{Path: path, Args: args, ...}).Run() *)
  RunCmd : string -> list string -> option error
}.

(** The fields of the agent's configuration the two arms read. *)
Record config : Type := {
  Interface : string;
  NoEtcHosts : bool;
  NodeUpdateScript : string
}.

Inductive Level : Type := InfoLevel | WarnLevel | ErrorLevel.

Inductive Action : Type :=
| ByCluster (e : Effect)                                  (* done inside a cluster method *)
| LogLine (level : Level) (format : string)               (* logrus *)
| WgSetUp (nodes : list DecodedNode) (routedNets : list IPNet)
| WgDown
| HostsWrite (entries : hostsMap)
| ScriptRun (path : string) (args : list string)
| Exit (code : Z).                                        (* os.Exit *)

Section RunLoop.
Context {R : net.Resolver} {ML : Type} {E : memberlist.Engine ML}
        {K : Collaborators}.

(** The key under which a decoded node enters the hosts map. *)
Definition overlayName (node : DecodedNode) : string :=
  net.String (IP (OverlayAddr node)).

(** One turn of the loop over [rawNodes]. *)
Definition decodeNode (acc : list DecodedNode * hostsMap * list Action)
           (raw : common.Node) : list DecodedNode * hostsMap * list Action :=
  let '(nodes, hosts, log) := acc in
  match DecodeMeta raw with
  | inr _ =>
      (nodes, hosts,
       log ++ [LogLine WarnLevel "\t addr: %s, could not decode metadata"])
  | inl node =>
      (nodes ++ [node],
       hosts_set (overlayName node) [common.Name (descriptor node)] hosts,
       log ++ [LogLine InfoLevel
                 "\taddr: %s, overlay: %s, pubkey: %s, net: %s, routes: %s"])
  end.

(** [case rawNodes := <-nodec] *)
Definition onNodes (cfg : config) (routedNets : list IPNet)
           (rawNodes : list common.Node) : list Action :=
  let '(nodes, hosts, log) :=
    fold_left decodeNode rawNodes
              ([], [], [LogLine InfoLevel "cluster members:\n"]) in
  let setup :=
    WgSetUp nodes routedNets ::
    match SetUpInterface nodes routedNets with
    | Some _ => [LogLine ErrorLevel "could not up interface"; WgDown]
    | None => []
    end in
  let write :=
    if negb (NoEtcHosts cfg)
    then HostsWrite hosts ::
         match WriteEntries hosts with
         | Some _ => [LogLine ErrorLevel "could not write hosts entries"]
         | None => []
         end
    else [] in
  let script :=
    if Nat.ltb 0 (String.length (NodeUpdateScript cfg))
    then
      let updateScript := fst (LookPath (NodeUpdateScript cfg)) in
      ScriptRun updateScript [updateScript; Interface cfg] ::
      match RunCmd updateScript [updateScript; Interface cfg] with
      | Some _ =>
          [LogLine ErrorLevel "error while executing node-update-script %s: %s"]
      | None => []
      end
    else [] in
  log ++ setup ++ write ++ script.

(** [case <-incomingSigs] *)
Definition onSignal (cfg : config) (c : Cluster ML) : list Action :=
  [LogLine InfoLevel "terminating..."] ++
  map ByCluster (trace_of (Leave c)) ++
  (if negb (NoEtcHosts cfg)
   then HostsWrite [] ::
        match WriteEntries [] with
        | Some _ => [LogLine ErrorLevel "could not remove stale hosts entries"]
        | None => []
        end
   else []) ++
  (WgDown ::
   match DownInterface with
   | Some _ => [LogLine ErrorLevel "could not down interface"]
   | None => []
   end) ++
  [Exit 0].

(** The nodes that decode, in order. *)
Definition decodable (rawNodes : list common.Node) : list DecodedNode :=
  flat_map (fun raw => match DecodeMeta raw with
                       | inl node => [node]
                       | inr _ => []
                       end) rawNodes.

(** The hosts map the loop builds. *)
Definition hostsOf (rawNodes : list common.Node) : hostsMap :=
  snd (fst (fold_left decodeNode rawNodes ([], [], []))).

(** The entry a decoded node sets. *)
Definition enterHost (hosts : hostsMap) (node : DecodedNode) : hostsMap :=
  hosts_set (overlayName node) [common.Name (descriptor node)] hosts.

(** The line the loop logs for a node. *)
Definition decodeLine (raw : common.Node) : Action :=
  match DecodeMeta raw with
  | inr _ => LogLine WarnLevel "\t addr: %s, could not decode metadata"
  | inl _ => LogLine InfoLevel
               "\taddr: %s, overlay: %s, pubkey: %s, net: %s, routes: %s"
  end.

(** The last node of the list that enters the hosts map under [k]. *)
Definition lastUnder (k : string) (nodes : list DecodedNode) : option DecodedNode :=
  find (fun node => String.eqb k (overlayName node)) (rev nodes).

End RunLoop.

(** Reading a run of the agent. *)
Definition setups (t : list Action) : list (list DecodedNode * list IPNet) :=
  flat_map (fun a => match a with WgSetUp ns rs => [(ns, rs)] | _ => [] end) t.

Definition writes (t : list Action) : list hostsMap :=
  flat_map (fun a => match a with HostsWrite h => [h] | _ => [] end) t.

Definition scripts (t : list Action) : list (string * list string) :=
  flat_map (fun a => match a with ScriptRun p args => [(p, args)] | _ => [] end) t.

Definition downs (t : list Action) : nat :=
  List.length (filter (fun a => match a with WgDown => true | _ => false end) t).

(** ** The goroutine as [Leave] can find it

    [Leave] runs on the goroutine of [main], which is also the only
    receiver of the channel of [Members].  When it runs, the goroutine of
    [Members] has made some whole turns and may stand in one more, at the
    send nobody receives: the event is logged and [c.state.Nodes] assigned,
    the snapshot is not sent and the state not saved. *)

Section InterruptedRun.
Context {ML : Type} {E : memberlist.Engine ML}.

(** A turn of the loop up to, and without, its send. *)
Definition onEventUntilSend (event : memberlist.NodeEvent) : Act ML unit :=
  c <- this ;;
  if String.eqb (memberlist.Name (memberlist.EventNode event)) (LocalName c)
  then ret tt
  else
    emit (LogInfo (String.append "node "
            (String.append (memberlist.Name (memberlist.EventNode event))
               (String.append " " (eventVerb (memberlist.Event event)))))) ;;
    let nodes := snapshot c in
    assign (fun c => set_cstate c (set_Nodes (cstate c) nodes)).

(** Whole turns for [deliveries], then possibly a turn for [waiting] that
    stands at its send. *)
Definition MembersUntil (deliveries : list Delivery) (waiting : option Delivery)
  : Act ML unit :=
  Members deliveries ;;
  match waiting with
  | None => ret tt
  | Some d =>
      assign (fun c => set_ml c (engine_then d)) ;;
      onEventUntilSend (delivered d)
  end.

(** The snapshot a turn standing at its send has assigned, if any. *)
Definition assignedBy (local : string) (waiting : option Delivery)
  : list (list common.Node) :=
  match waiting with
  | None => []
  | Some d => forwarded local d
  end.
End InterruptedRun.

(** What a run of the agent does, its log lines apart. *)
Definition deeds (t : list Action) : list Action :=
  filter (fun a => match a with LogLine _ _ => false | _ => true end) t.

(** ** A small concrete world

    One instance of every interface, used to run the methods on concrete
    inputs: a resolver driven by two tables, an engine whose state is its
    roster together with the nodes that answer at each address, a random
    source that either delivers a fixed byte or fails, and an empty state
    store. *)

Module World.

Fixpoint bytes_eqb (a b : bytes) : bool :=
  match a, b with
  | [], [] => true
  | x :: a', y :: b' => Byte.eqb x y && bytes_eqb a' b'
  | _, _ => false
  end.

Fixpoint assoc {A : Type} (k : string) (t : list (string * A)) : option A :=
  match t with
  | [] => None
  | (k', v) :: rest => if String.eqb k k' then Some v else assoc k rest
  end.

Definition ip1 : net.IP := [x0a; x00; x00; x01].     (* 10.0.0.1 *)
Definition ip2 : net.IP := [x0a; x00; x00; x02].     (* 10.0.0.2 *)
Definition ip9 : net.IP := [x0a; x00; x00; x09].     (* 10.0.0.9 *)
Definition loopback : net.IP := [x7f; x00; x00; x01]. (* 127.0.0.1 *)

Definition literals : list (string * net.IP) :=
  [("10.0.0.1", ip1); ("10.0.0.2", ip2); ("10.0.0.9", ip9);
   ("127.0.0.1", loopback)].

Definition zone : list (string * list net.IP) :=
  [("two.mesh.example", [ip2])].

#[export] Instance resolver : net.Resolver := {|
  net.ParseIP host := assoc host literals;
  net.LookupIP host :=
    match assoc host zone with
    | Some ips => (ips, None)
    | None => ([], Some (foreign "no such host"))
    end;
  net.Equal a b := bytes_eqb a b;
  net.String ip :=
    match find (fun entry => bytes_eqb (snd entry) ip) literals with
    | Some entry => fst entry
    | None => "?"
    end
|}.

(** The engine: who is in the roster, and who answers at which address. *)
Record Mesh : Type := {
  roster : list memberlist.Node;
  answering : list (string * memberlist.Node)
}.

Definition known (m : Mesh) (n : memberlist.Node) : bool :=
  existsb (fun x => String.eqb (memberlist.Name x) (memberlist.Name n)) (roster m).

(** Contact every target in turn; a node that answers is merged into the
    roster; the call fails only when nobody answered. *)
Fixpoint contact (m : Mesh) (targets : list string) (ok : nat) : Mesh * nat :=
  match targets with
  | [] => (m, ok)
  | t :: rest =>
      match assoc t (answering m) with
      | Some n =>
          let m' := if known m n then m
                    else {| roster := roster m ++ [n]; answering := answering m |} in
          contact m' rest (Datatypes.S ok)
      | None => contact m rest ok
      end
  end.

Definition self (nm : string) (a : net.IP) : memberlist.Node :=
  {| memberlist.Name := nm; memberlist.Addr := a; memberlist.Meta := [] |}.

#[export] Instance engine : memberlist.Engine Mesh := {|
  memberlist.DefaultWANConfig :=
    {| memberlist.ConfigName := "host-a";
       memberlist.SecretKey := [];
       memberlist.BindAddr := "0.0.0.0";
       memberlist.BindPort := 7946;
       memberlist.AdvertiseAddr := "";
       memberlist.AdvertisePort := 7946;
       memberlist.Conflict := None;
       memberlist.Delegate := None;
       memberlist.Events := None |};
  memberlist.Create cfg :=
    inl {| roster := [self (memberlist.ConfigName cfg) ip9]; answering := [] |};
  memberlist.LocalNode m := hd (self "" []) (roster m);
  memberlist.Members m := roster m;
  memberlist.NumMembers m := List.length (roster m);
  memberlist.Join m targets :=
    let '(m', ok) := contact m targets 0 in
    (m', (ok, match targets, ok with
              | _ :: _, O => Some (foreign "failed to join")
              | _, _ => None
              end));
  memberlist.Leave m _ := (m, None);
  memberlist.Shutdown m := (m, None);
  memberlist.UpdateNode m _ _ := (m, None)
|}.

#[export] Instance store : StateStore := {| loadState st _ := st |}.

(** A random source that fills the buffer with one fixed byte. *)
Definition fill (b : bytes) : bytes := map (fun _ => x2a) b.

#[export] Instance platform : Platform := {|
  rand_Read b := (fill b, (List.length b, None));
  rand_Read_length := fun b => length_map (fun _ => x2a) b;
  stdout_IsTerminal := false;
  base64_EncodeToString _ := ""
|}.

(** A random source that is exhausted. *)
Definition exhausted : Platform := {|
  rand_Read b := (b, (0, Some (foreign "entropy")));
  rand_Read_length := fun b => eq_refl;
  stdout_IsTerminal := false;
  base64_EncodeToString _ := ""
|}.

Definition nodeA : memberlist.Node := self "node-a" ip1.
Definition nodeB : memberlist.Node := self "node-b" ip2.
Definition me : memberlist.Node := self "host-a" ip9.

Definition cluster (m : Mesh) (st : state) : Cluster Mesh :=
  {| name := "wgoverlay";
     ml := m;
     mlConfig := memberlist.DefaultWANConfig;
     localNode := None;
     LocalName := "host-a";
     cstate := st;
     events := {| memberlist.capacity := 100 |} |}.

Definition key32 : bytes := repeat x2a 32.

(** The agent's collaborators: metadata is the four bytes of the overlay
    address, the interface cannot be set up without peers, and only the
    script [notify] is found. *)
#[export] Instance collaborators : Collaborators := {|
  DecodeMeta raw :=
    match common.Meta raw with
    | [a; b; c; d] =>
        inl {| descriptor := raw;
               OverlayAddr := {| IP := [a; b; c; d]; Mask := [xff; xff; xff; x00] |};
               PubKey := "";
               Routes := [] |}
    | _ => inr (foreign "short metadata")
    end;
  SetUpInterface nodes _ :=
    match nodes with
    | [] => Some (foreign "no peers")
    | _ :: _ => None
    end;
  DownInterface := None;
  WriteEntries _ := None;
  LookPath file :=
    if String.eqb file "notify" then ("/usr/local/bin/notify", None)
    else ("", Some (foreign "executable file not found in $PATH"));
  RunCmd path _ :=
    if String.eqb path "" then Some (foreign "exec: no command") else None
|}.

Definition peer (nm : string) (a : net.IP) (meta : bytes) : common.Node :=
  {| common.Name := nm; common.Addr := a; common.Meta := meta |}.

(** Alone in the roster; the loopback address is answered by ourselves. *)
Definition alone : Mesh :=
  {| roster := [me]; answering := [("127.0.0.1", me)] |}.

(** [node-a] is a live member; [node-b] answers at 10.0.0.2. *)
Definition paired : Mesh :=
  {| roster := [me; nodeA]; answering := [("10.0.0.2", nodeB)] |}.

(** Both peers are live members. *)
Definition full : Mesh :=
  {| roster := [me; nodeA; nodeB]; answering := [] |}.

Definition blank : state := {| ClusterKey := []; Nodes := [] |}.

(** A state that remembers [node-b] from an earlier run. *)
Definition remembered : state :=
  {| ClusterKey := key32; Nodes := [toCommon nodeB] |}.

Definition event (t : memberlist.NodeEventType) (n : memberlist.Node)
  : memberlist.NodeEvent :=
  {| memberlist.Event := t; memberlist.EventNode := n |}.

(** A state file written by an earlier run, and a store that holds it. *)
Definition stored : state :=
  {| ClusterKey := repeat x07 32; Nodes := [toCommon nodeB] |}.

Definition remembering : StateStore := {| loadState _ _ := stored |}.

Definition settings : config :=
  {| Interface := "wgoverlay"; NoEtcHosts := false; NodeUpdateScript := "notify" |}.

(** Members that gossip their overlay address as metadata; the local node
    gossips 10.0.0.9 and [node-b] gossips a blob that does not decode. *)
Definition gossiping : Mesh :=
  {| roster :=
       [ {| memberlist.Name := "host-a"; memberlist.Addr := ip9;
            memberlist.Meta := ip9 |};
         {| memberlist.Name := "node-a"; memberlist.Addr := ip1;
            memberlist.Meta := ip1 |};
         {| memberlist.Name := "node-b"; memberlist.Addr := ip2;
            memberlist.Meta := [x01] |} ];
     answering := [] |}.

Definition decodedA : DecodedNode :=
  {| descriptor := peer "node-a" ip1 ip1;
     OverlayAddr := {| IP := ip1; Mask := [xff; xff; xff; x00] |};
     PubKey := "";
     Routes := [] |}.

End World.

(** The error [Join] returns when the membership stays below two. *)
Definition quorumError : error :=
  errors_New "could not join to any of the provided addresses".

(** The panic of a nil pointer dereference. *)
Definition nilDereference : string :=
  "invalid memory address or nil pointer dereference".

(** No node of the list carries the name [local]. *)
Definition withoutName (local : string) (nodes : list common.Node) : Prop :=
  forall n, In n nodes -> common.Name n <> local.

Ltac run_act :=
  unfold bind, this, assign, emit, ret, result_of, cluster_of, trace_of;
  simpl.

(** * Properties *)

(** ** Loops as list operations *)

Lemma fold_left_append {A B : Type} (f : B -> list A) (l : list B) (acc : list A) :
  fold_left (fun acc x => acc ++ f x) l acc = acc ++ flat_map f l.
Proof.
  revert acc; induction l as [|x l IH]; intro acc; simpl.
  - now rewrite app_nil_r.
  - now rewrite IH, app_assoc.
Qed.

Lemma length_zero_nil {A : Type} (l : list A) :
  Nat.eqb (List.length l) 0 = match l with [] => true | _ :: _ => false end.
Proof. now destruct l. Qed.

Section Loops.
Context {R : net.Resolver} {ML : Type} {E : memberlist.Engine ML}.

Lemma resolveHost_addressesOf (addrs : list net.IP) (host : string) :
  resolveHost addrs host = addrs ++ addressesOf host.
Proof.
  unfold resolveHost, addressesOf.
  destruct (net.ParseIP host); [reflexivity|].
  destruct (net.LookupIP host) as [ips [e|]]; [|reflexivity].
  now rewrite app_nil_r.
Qed.

Lemma resolveHosts_flat_map (hosts : list string) :
  resolveHosts hosts = flat_map addressesOf hosts.
Proof.
  unfold resolveHosts.
  rewrite <- (app_nil_l (flat_map addressesOf hosts)).
  rewrite <- fold_left_append.
  generalize (@nil net.IP) as acc.
  induction hosts as [|h hosts IH]; intro acc; simpl; [reflexivity|].
  now rewrite resolveHost_addressesOf, IH.
Qed.

Lemma addressesOf_unresolvable (host : string) :
  resolvable host = false -> addressesOf host = [].
Proof.
  unfold resolvable, addressesOf.
  destruct (net.ParseIP host); [discriminate|].
  destruct (net.LookupIP host) as [ips [e|]]; simpl; [reflexivity|discriminate].
Qed.

Lemma resolveHosts_filter_resolvable (hosts : list string) :
  resolveHosts (filter resolvable hosts) = resolveHosts hosts.
Proof.
  rewrite !resolveHosts_flat_map.
  induction hosts as [|h hosts IH]; simpl; [reflexivity|].
  destruct (resolvable h) eqn:Hr; simpl.
  - now rewrite IH.
  - now rewrite (addressesOf_unresolvable h Hr), IH.
Qed.

Lemma addKnownHosts_cases (st : state) (addrs : list net.IP) :
  addKnownHosts st addrs =
  match addrs with
  | [] => map common.Addr (Nodes st)
  | _ :: _ => addrs
  end.
Proof.
  unfold addKnownHosts. rewrite length_zero_nil.
  destruct addrs; [|reflexivity].
  rewrite (fold_left_append (fun n => [common.Addr n])). simpl.
  induction (Nodes st) as [|n ns IH]; simpl; [reflexivity|now rewrite IH].
Qed.

Lemma isMember_atMember (members : list memberlist.Node) (addr : net.IP) :
  isMember members addr = atMember members addr.
Proof.
  unfold atMember.
  induction members as [|m ms IH]; simpl; [reflexivity|].
  now destruct (net.Equal (memberlist.Addr m) addr).
Qed.

Lemma filterTargets_filter (members : list memberlist.Node) (addrs : list net.IP) :
  filterTargets members addrs =
  map net.String (filter (fun a => negb (atMember members a)) addrs).
Proof.
  unfold filterTargets.
  enough (H : forall acc : list string,
             fold_left
               (fun targets addr =>
                  if isMember members addr then targets
                  else targets ++ [net.String addr]) addrs acc =
             acc ++ map net.String
                      (filter (fun a => negb (atMember members a)) addrs))
    by apply (H []).
  induction addrs as [|a addrs IH]; intro acc; simpl.
  - now rewrite app_nil_r.
  - rewrite IH, isMember_atMember.
    destruct (atMember members a); simpl; [reflexivity|].
    now rewrite <- app_assoc.
Qed.

Lemma snapshot_filter (c : Cluster ML) :
  snapshot c =
  map toCommon (filter (notNamed (LocalName c)) (memberlist.Members (ml c))).
Proof.
  unfold snapshot.
  enough (H : forall acc : list common.Node,
             fold_left
               (fun nodes n =>
                  if String.eqb (memberlist.Name n) (LocalName c) then nodes
                  else nodes ++ [{| common.Name := memberlist.Name n;
                                    common.Addr := memberlist.Addr n;
                                    common.Meta := memberlist.Meta n |}])
               (memberlist.Members (ml c)) acc =
             acc ++ map toCommon
                      (filter (notNamed (LocalName c)) (memberlist.Members (ml c))))
    by apply (H []).
  induction (memberlist.Members (ml c)) as [|n ns IH]; intro acc; simpl.
  - now rewrite app_nil_r.
  - rewrite IH. unfold notNamed at 2.
    destruct (String.eqb (memberlist.Name n) (LocalName c)); simpl; [reflexivity|].
    now rewrite <- app_assoc.
Qed.
End Loops.

(** ** Key bootstrap *)

Section KeyBootstrapFacts.
Context {P : Platform}.

Lemma computeClusterKey_explicit (st : state) (b : byte) (key : bytes) :
  computeClusterKey st (b :: key) =
  ((b :: key, None), set_ClusterKey st (b :: key), []).
Proof. reflexivity. Qed.

Lemma computeClusterKey_persisted (st : state) (b : byte) (key : bytes) :
  ClusterKey st = b :: key ->
  computeClusterKey st [] = ((b :: key, None), set_ClusterKey st (b :: key), []).
Proof. intro H. unfold computeClusterKey. simpl. now rewrite H. Qed.

Lemma computeClusterKey_fresh (st : state) :
  ClusterKey st = [] ->
  computeClusterKey st [] =
  match rand_Read (make_bytes KeyLen) with
  | (_, (_, Some e)) => (([], Some (fmt_Errorf "reading random source" e)), st, [])
  | (key, (_, None)) =>
      ((key, None), set_ClusterKey st key,
       if stdout_IsTerminal
       then [Print (String.append "new cluster key generated: "
                      (String.append (base64_EncodeToString key)
                                     (String (ascii_of_nat 10) EmptyString)))]
       else [])
  end.
Proof.
  intro H. unfold computeClusterKey. simpl List.length. cbv iota. rewrite H. simpl.
  destruct (rand_Read (make_bytes KeyLen)) as [key [n [e|]]]; reflexivity.
Qed.

(** C1. Key precedence: in each of the four combinations of explicit key
    (empty or not) and persisted key (empty or not), [computeClusterKey]
    returns the explicit key when it is non-empty, otherwise the persisted
    key when that is non-empty, otherwise the 32 bytes just read from the
    random source (the call fails only when that read fails). *)
Theorem computeClusterKey_precedence (st : state) (explicit : bytes) :
  let r := computeClusterKey st explicit in
  match explicit, ClusterKey st with
  | _ :: _, _ =>
      returned_key r = explicit /\ returned_err r = None
  | [], _ :: _ =>
      returned_key r = ClusterKey st /\ returned_err r = None
  | [], [] =>
      match rand_Read (make_bytes KeyLen) with
      | (fresh, (_, None)) =>
          returned_key r = fresh /\ returned_err r = None /\
          List.length fresh = 32
      | (_, (_, Some e)) =>
          returned_key r = [] /\
          returned_err r = Some (fmt_Errorf "reading random source" e)
      end
  end.
Proof.
  cbv zeta.
  destruct explicit as [|b key].
  - destruct (ClusterKey st) as [|b key] eqn:Hk.
    + rewrite (computeClusterKey_fresh st Hk).
      pose proof (rand_Read_length (make_bytes KeyLen)) as Hlen.
      destruct (rand_Read (make_bytes KeyLen)) as [fresh [n [e|]]]; simpl in *.
      * now split.
      * repeat split. exact Hlen.
    + rewrite (computeClusterKey_persisted st Hk). now split.
  - rewrite computeClusterKey_explicit. now split.
Qed.

(** C8. After a call of [computeClusterKey] that returns no error, the key
    field of the state holds the returned key and the node list of the
    state is the one it held before. *)
Theorem computeClusterKey_stores_key (st : state) (explicit : bytes) :
  returned_err (computeClusterKey st explicit) = None ->
  ClusterKey (state_after (computeClusterKey st explicit)) =
    returned_key (computeClusterKey st explicit) /\
  Nodes (state_after (computeClusterKey st explicit)) = Nodes st.
Proof.
  destruct explicit as [|b key].
  - destruct (ClusterKey st) as [|b key] eqn:Hk.
    + rewrite (computeClusterKey_fresh st Hk).
      destruct (rand_Read (make_bytes KeyLen)) as [fresh [n [e|]]]; simpl.
      * discriminate.
      * now split.
    + rewrite (computeClusterKey_persisted st Hk). now split.
  - rewrite computeClusterKey_explicit. now split.
Qed.

(** C10. No length check: a non-empty explicit key, whatever its length, is
    returned as it is and stored in the state; so is a non-empty persisted
    key when no explicit key is given.  Neither case reads the random
    source or prints, and [KeyLen] plays no part in them. *)
Theorem computeClusterKey_any_length (key : bytes) :
  key <> [] ->
  (forall st : state,
     computeClusterKey st key = ((key, None), set_ClusterKey st key, [])) /\
  (forall st : state,
     ClusterKey st = key ->
     computeClusterKey st [] = ((key, None), st, [])).
Proof.
  intro Hne. destruct key as [|b key]; [now elim Hne|]. split.
  - intro st. apply computeClusterKey_explicit.
  - intros st Hk. rewrite (computeClusterKey_persisted st Hk).
    destruct st as [k ns]. simpl in Hk. subst k. reflexivity.
Qed.

End KeyBootstrapFacts.

(** ** Join *)

Section JoinFacts.
Context {R : net.Resolver} {ML : Type} {E : memberlist.Engine ML}.

(** [Join] in one piece: the targets, the engine call, the verdict. *)
Lemma Join_run (c : Cluster ML) (hosts : list string) :
  Join hosts c =
  let targets := joinTargets c hosts in
  let m := fst (memberlist.Join (ml c) targets) in
  (match snd (snd (memberlist.Join (ml c) targets)) with
   | Some e => Some (fmt_Errorf "joining cluster" e)
   | None =>
       if Nat.ltb 0 (List.length targets) && Nat.ltb (memberlist.NumMembers m) 2
       then Some quorumError else None
   end,
   set_ml c m, [MlJoin targets]).
Proof.
  unfold Join, mlJoin, joinTargets, joinCandidates. run_act.
  destruct (memberlist.Join _ _) as [m [n [e|]]]; simpl; [reflexivity|].
  destruct (_ && _); reflexivity.
Qed.

Lemma joinCandidates_cases (c : Cluster ML) (hosts : list string) :
  joinCandidates c hosts =
  match resolveHosts hosts with
  | [] => map common.Addr (Nodes (cstate c))
  | _ :: _ => resolveHosts hosts
  end.
Proof. unfold joinCandidates. apply addKnownHosts_cases. Qed.

Lemma joinTargets_filter (c : Cluster ML) (hosts : list string) :
  joinTargets c hosts =
  map net.String
      (filter (fun a => negb (atMember (memberlist.Members (ml c)) a))
              (joinCandidates c hosts)).
Proof. unfold joinTargets. apply filterTargets_filter. Qed.

(** C2. Quorum check: when at least one target is left after filtering, and
    the engine counts fewer than 2 members once its join call is over,
    [Join] returns an error; when the engine's own call reported none it is
    the quorum error. *)
Theorem Join_below_quorum_fails (c : Cluster ML) (hosts : list string) :
  joinTargets c hosts <> [] ->
  (memberlist.NumMembers (ml (cluster_of (Join hosts c))) < 2)%nat ->
  trace_of (Join hosts c) = [MlJoin (joinTargets c hosts)] /\
  result_of (Join hosts c) <> None /\
  (snd (snd (memberlist.Join (ml c) (joinTargets c hosts))) = None ->
   result_of (Join hosts c) = Some quorumError).
Proof.
  rewrite Join_run. cbv zeta. unfold result_of, cluster_of, trace_of. simpl.
  intros Hne Hlt. split; [reflexivity|].
  assert (Hcond : Nat.ltb 0 (List.length (joinTargets c hosts))
                  && Nat.ltb (memberlist.NumMembers
                       (fst (memberlist.Join (ml c) (joinTargets c hosts)))) 2 = true).
  { apply andb_true_intro. split.
    - apply Nat.ltb_lt. destruct (joinTargets c hosts); [now elim Hne|simpl; lia].
    - now apply Nat.ltb_lt. }
  rewrite Hcond.
  destruct (snd (snd (memberlist.Join (ml c) (joinTargets c hosts)))) as [e|].
  - split; [discriminate|intro H; discriminate H].
  - split; [discriminate|reflexivity].
Qed.

(** C3. Addresses of live members are not joined: the targets handed to the
    engine are the candidates, in order, without those equal to the address
    of some member.  With [A] the address of a member and [B] equal to no
    member's address, targets [A; B] attempt only [B]; target [A] alone
    attempts nothing, the quorum check does not apply, and [Join] returns
    whatever the engine returns for the empty list (nil when that is nil). *)
Theorem Join_skips_members (c : Cluster ML) :
  let members := memberlist.Members (ml c) in
  (forall hosts,
     trace_of (Join hosts c) = [MlJoin (joinTargets c hosts)] /\
     joinTargets c hosts =
       map net.String
           (filter (fun a => negb (atMember members a)) (joinCandidates c hosts))) /\
  (forall (A B : string) (a b : net.IP),
     net.ParseIP A = Some a -> net.ParseIP B = Some b ->
     atMember members a = true -> atMember members b = false ->
     trace_of (Join [A; B] c) = [MlJoin [net.String b]]) /\
  (forall (A : string) (a : net.IP),
     net.ParseIP A = Some a -> atMember members a = true ->
     trace_of (Join [A] c) = [MlJoin []] /\
     result_of (Join [A] c) =
       option_map (fmt_Errorf "joining cluster")
                  (snd (snd (memberlist.Join (ml c) []))) /\
     (snd (snd (memberlist.Join (ml c) [])) = None ->
      result_of (Join [A] c) = None)).
Proof.
  cbv zeta. split; [|split].
  - intro hosts. rewrite Join_run. split; [reflexivity|apply joinTargets_filter].
  - intros A B a b HA HB Ha Hb.
    rewrite Join_run. cbv zeta. unfold trace_of. simpl.
    rewrite joinTargets_filter, joinCandidates_cases, resolveHosts_flat_map.
    simpl. unfold addressesOf. rewrite HA, HB. simpl.
    now rewrite Ha, Hb.
  - intros A a HA Ha.
    assert (Ht : joinTargets c [A] = []).
    { rewrite joinTargets_filter, joinCandidates_cases, resolveHosts_flat_map.
      simpl. unfold addressesOf. rewrite HA. simpl. now rewrite Ha. }
    rewrite Join_run. cbv zeta. unfold trace_of, result_of. simpl.
    rewrite Ht. simpl.
    destruct (snd (snd (memberlist.Join (ml c) []))) as [e|].
    + repeat split. intro H. discriminate H.
    + repeat split.
Qed.

(** C4, as the code has it. The persisted peer list supplies the candidates
    exactly when resolution yields no address: with no targets at all, and
    also with targets of which none parsed or resolved. As soon as one
    address was resolved, the candidates are the resolved addresses and the
    persisted list is not consulted. *)
Theorem Join_falls_back_when_nothing_resolved (c : Cluster ML) (hosts : list string) :
  joinCandidates c [] = map common.Addr (Nodes (cstate c)) /\
  joinCandidates c hosts =
    match flat_map addressesOf hosts with
    | [] => map common.Addr (Nodes (cstate c))
    | resolved => resolved
    end /\
  trace_of (Join hosts c) =
    [MlJoin (filterTargets (memberlist.Members (ml c)) (joinCandidates c hosts))].
Proof.
  split; [|split].
  - now rewrite joinCandidates_cases.
  - rewrite joinCandidates_cases, resolveHosts_flat_map.
    now destruct (flat_map addressesOf hosts).
  - rewrite Join_run. reflexivity.
Qed.

(** C5. Best-effort resolution: a target that parses as a literal address
    contributes that address, any other target contributes the addresses
    its lookup returns, and a target whose lookup fails contributes
    nothing.  These addresses (the persisted peers when there is none),
    without those of live members, are what [Join] hands to the engine, in
    one call; the result of [Join] is decided by the engine's answer and
    the member count alone, so a failed lookup is never the cause of an
    error; and [Join] behaves, in result, cluster and trace, as if the
    failing targets had not been given. *)
Theorem Join_resolves_best_effort (c : Cluster ML) (hosts : list string) :
  let resolved := flat_map addressesOf hosts in
  let candidates :=
    match resolved with
    | [] => map common.Addr (Nodes (cstate c))
    | _ :: _ => resolved
    end in
  let targets :=
    map net.String
        (filter (fun a => negb (atMember (memberlist.Members (ml c)) a))
                candidates) in
  resolveHosts hosts = resolved /\
  trace_of (Join hosts c) = [MlJoin targets] /\
  result_of (Join hosts c) =
    match snd (snd (memberlist.Join (ml c) targets)) with
    | Some e => Some (fmt_Errorf "joining cluster" e)
    | None =>
        if Nat.ltb 0 (List.length targets)
           && Nat.ltb (memberlist.NumMembers
                         (fst (memberlist.Join (ml c) targets))) 2
        then Some quorumError else None
    end /\
  Join hosts c = Join (filter resolvable hosts) c.
Proof.
  cbv zeta.
  assert (Ht : joinTargets c hosts =
               map net.String
                   (filter (fun a => negb (atMember (memberlist.Members (ml c)) a))
                           match flat_map addressesOf hosts with
                           | [] => map common.Addr (Nodes (cstate c))
                           | _ :: _ => flat_map addressesOf hosts
                           end)).
  { rewrite joinTargets_filter, joinCandidates_cases, resolveHosts_flat_map.
    reflexivity. }
  split; [apply resolveHosts_flat_map|].
  split; [rewrite Join_run; unfold trace_of; simpl; now rewrite Ht|].
  split; [rewrite Join_run; unfold result_of; simpl; now rewrite Ht|].
  rewrite !Join_run. unfold joinTargets, joinCandidates.
  now rewrite resolveHosts_filter_resolvable.
Qed.

End JoinFacts.

(** ** Leave, Update, Name *)

Section LifecycleFacts.
Context {R : net.Resolver} {ML : Type} {E : memberlist.Engine ML}
        {S : StateStore} {P : Platform}.

Lemma Leave_run (c : Cluster ML) :
  Leave c =
  (tt,
   set_ml c (fst (memberlist.Shutdown
                    (fst (memberlist.Leave (ml c) (10 * time.Second)%Z)))),
   [SaveState (name c) (cstate c);
    MlLeave (10 * time.Second)%Z;
    MlShutdown]).
Proof.
  unfold Leave, save, mlLeave, mlShutdown. run_act.
  destruct (memberlist.Leave (ml c) _) as [m1 e1]; simpl.
  destruct (memberlist.Shutdown m1) as [m2 e2]; reflexivity.
Qed.

(** C6. Persist before leave: the effects of [Leave] are, in this order and
    nothing else, the save of the state as it stands at the call, the
    engine's departure broadcast with a timeout of ten seconds, and the
    shutdown of the engine. *)
Theorem Leave_saves_then_leaves_then_shuts_down (c : Cluster ML) :
  trace_of (Leave c) =
    [SaveState (name c) (cstate c); MlLeave 10000000000%Z; MlShutdown] /\
  cstate (cluster_of (Leave c)) = cstate c /\
  ml (cluster_of (Leave c)) =
    fst (memberlist.Shutdown (fst (memberlist.Leave (ml c) 10000000000%Z))).
Proof. rewrite Leave_run. repeat split. Qed.

Lemma Update_localNode (c : Cluster ML) (node : option common.Node) :
  localNode (cluster_of (Update node c)) = node.
Proof.
  unfold Update, mlUpdateNode. run_act.
  destruct (memberlist.UpdateNode _ _ _) as [m e]; reflexivity.
Qed.

Lemma New_localNode name init key bindAddr bindPort advAddr advPort useIP
      (c : Cluster ML) (out : list Effect) :
  New name init key bindAddr bindPort advAddr advPort useIP = ((Some c, None), out) ->
  localNode c = None /\
  LocalName c = memberlist.Name (memberlist.LocalNode (ml c)).
Proof.
  unfold New.
  destruct (computeClusterKey _ key) as [[[k [e|]] st] o]; [discriminate|].
  destruct (memberlist.Create _) as [m|e]; [|discriminate].
  intro H. injection H as <- _. now split.
Qed.

End LifecycleFacts.

(** ** Members *)

Section MembersFacts.
Context {R : net.Resolver} {ML : Type} {E : memberlist.Engine ML}
        {S : StateStore} {P : Platform}.

Lemma onEvent_run (event : memberlist.NodeEvent) (c : Cluster ML) :
  onEvent event c =
  if String.eqb (memberlist.Name (memberlist.EventNode event)) (LocalName c)
  then (tt, c, [])
  else (tt, set_cstate c (recorded c),
        [LogInfo (String.append "node "
                   (String.append (memberlist.Name (memberlist.EventNode event))
                      (String.append " " (eventVerb (memberlist.Event event)))));
         Publish (snapshot c);
         SaveState (name c) (recorded c)]).
Proof.
  unfold onEvent, save. run_act.
  destruct (String.eqb _ _); reflexivity.
Qed.

Lemma onEvent_keeps (event : memberlist.NodeEvent) (c : Cluster ML) :
  LocalName (cluster_of (onEvent event c)) = LocalName c /\
  localNode (cluster_of (onEvent event c)) = localNode c.
Proof.
  rewrite onEvent_run. destruct (String.eqb _ _); now split.
Qed.

Lemma Members_step (d : Delivery) (rest : list Delivery) (c : Cluster ML) :
  let c1 := set_ml c (engine_then d) in
  let c2 := cluster_of (onEvent (delivered d) c1) in
  cluster_of (Members (d :: rest) c) = cluster_of (Members rest c2) /\
  trace_of (Members (d :: rest) c) =
    trace_of (onEvent (delivered d) c1) ++ trace_of (Members rest c2).
Proof.
  cbv zeta.
  assert (Hrun : Members (d :: rest) c =
                 let '(_, c2, t2) := onEvent (delivered d) (set_ml c (engine_then d)) in
                 let '(u, c3, t3) := Members rest c2 in
                 (u, c3, t2 ++ t3)).
  { simpl Members. unfold bind, assign. simpl.
    destruct (onEvent (delivered d) _) as [[u c2] t2].
    destruct (Members rest c2) as [[u' c3] t3]. reflexivity. }
  rewrite Hrun. unfold cluster_of, trace_of.
  destruct (onEvent (delivered d) _) as [[u c2] t2]. simpl.
  destruct (Members rest c2) as [[u' c3] t3]. now split.
Qed.

Lemma Members_keeps (deliveries : list Delivery) (c : Cluster ML) :
  LocalName (cluster_of (Members deliveries c)) = LocalName c /\
  localNode (cluster_of (Members deliveries c)) = localNode c.
Proof.
  revert c. induction deliveries as [|d rest IH]; intro c.
  - now split.
  - destruct (Members_step d rest c) as [Hc _]. rewrite Hc.
    destruct (IH (cluster_of (onEvent (delivered d) (set_ml c (engine_then d)))))
      as [H1 H2].
    destruct (onEvent_keeps (delivered d) (set_ml c (engine_then d))) as [H3 H4].
    rewrite H1, H2, H3, H4. now split.
Qed.

Lemma published_app (t1 t2 : list Effect) :
  published (t1 ++ t2) = published t1 ++ published t2.
Proof. unfold published. apply flat_map_app. Qed.

Lemma snapshot_withoutName (c : Cluster ML) :
  withoutName (LocalName c) (snapshot c).
Proof.
  intros n Hin. rewrite snapshot_filter in Hin.
  apply in_map_iff in Hin. destruct Hin as [m [<- Hm]].
  apply filter_In in Hm. destruct Hm as [_ Hm].
  unfold notNamed in Hm. apply negb_true_iff in Hm.
  simpl. now apply String.eqb_neq.
Qed.

Lemma Members_published (deliveries : list Delivery) (c : Cluster ML) :
  published (trace_of (Members deliveries c)) =
  flat_map (forwarded (LocalName c)) deliveries.
Proof.
  revert c. induction deliveries as [|d rest IH]; intro c; [reflexivity|].
  destruct (Members_step d rest c) as [_ Ht]. rewrite Ht, published_app, IH.
  destruct (onEvent_keeps (delivered d) (set_ml c (engine_then d))) as [-> _].
  simpl. f_equal.
  rewrite onEvent_run. unfold forwarded. simpl.
  destruct (String.eqb _ _); [reflexivity|].
  unfold trace_of, published. simpl. now rewrite snapshot_filter.
Qed.

(** C7. Self-exclusion: no snapshot sent on the channel of [Members]
    contains a node named like the local node.  An event about the local
    node changes nothing and sends nothing; any other event sends exactly
    one snapshot, the engine's roster at that moment without the entries
    named like the local node, and records it in the state.  Over a run, the
    snapshots sent are those of the forwarded events, in order. *)
Theorem Members_excludes_self (c : Cluster ML) :
  (forall deliveries,
     Forall (withoutName (LocalName c))
            (published (trace_of (Members deliveries c))) /\
     published (trace_of (Members deliveries c)) =
       flat_map (forwarded (LocalName c)) deliveries) /\
  (forall event,
     memberlist.Name (memberlist.EventNode event) = LocalName c ->
     onEvent event c = (tt, c, [])) /\
  (forall event,
     memberlist.Name (memberlist.EventNode event) <> LocalName c ->
     published (trace_of (onEvent event c)) =
       [map toCommon (filter (notNamed (LocalName c)) (memberlist.Members (ml c)))] /\
     Nodes (cstate (cluster_of (onEvent event c))) =
       map toCommon (filter (notNamed (LocalName c)) (memberlist.Members (ml c)))).
Proof.
  split; [|split].
  - intro deliveries. split; [|apply Members_published].
    rewrite Members_published. apply Forall_forall.
    intros nodes Hin. apply in_flat_map in Hin. destruct Hin as [d [_ Hd]].
    unfold forwarded in Hd.
    destruct (String.eqb _ _); [now elim Hd|].
    destruct Hd as [<-|[]].
    pose proof (snapshot_withoutName (set_ml c (engine_then d))) as H.
    now rewrite snapshot_filter in H.
  - intros event Hself. rewrite onEvent_run.
    apply String.eqb_eq in Hself. now rewrite Hself.
  - intros event Hother. rewrite onEvent_run.
    apply String.eqb_neq in Hother. rewrite Hother.
    unfold trace_of, cluster_of, published. simpl.
    now rewrite snapshot_filter.
Qed.

(** C9. [Name] reads through [localNode], which only [Update] assigns: on
    the cluster [New] returns the pointer is nil and [Name] panics, while
    [LocalName] already holds the engine's name for the local node; after
    [Update] with a descriptor [Name] returns that descriptor's name; and
    [Join], [Leave] and the goroutine of [Members] leave the pointer as it
    was. *)
Theorem Name_panics_before_Update :
  (forall name init key bindAddr bindPort advAddr advPort useIP
          (c : Cluster ML) (out : list Effect),
     New name init key bindAddr bindPort advAddr advPort useIP
       = ((Some c, None), out) ->
     Name c = Panics nilDereference /\
     LocalName c = memberlist.Name (memberlist.LocalNode (ml c))) /\
  (forall (c : Cluster ML) (node : common.Node),
     Name (cluster_of (Update (Some node) c)) = Returns (common.Name node)) /\
  (forall (c : Cluster ML) hosts deliveries,
     localNode (cluster_of (Join hosts c)) = localNode c /\
     localNode (cluster_of (Leave c)) = localNode c /\
     localNode (cluster_of (Members deliveries c)) = localNode c).
Proof.
  split; [|split].
  - intros name init key bindAddr bindPort advAddr advPort useIP c out H.
    destruct (New_localNode _ _ _ _ _ _ _ _ H) as [Hnil Hname].
    split; [|exact Hname]. unfold Name. now rewrite Hnil.
  - intros c node. unfold Name. now rewrite Update_localNode.
  - intros c hosts deliveries. split; [|split].
    + now rewrite Join_run.
    + now rewrite Leave_run.
    + apply Members_keeps.
Qed.

End MembersFacts.

(** ** More on the key bootstrap and [New] *)

Section BootstrapMore.
Context {R : net.Resolver} {ML : Type} {E : memberlist.Engine ML}
        {S : StateStore} {P : Platform}.

(** The three ways [computeClusterKey] can go, by where the key comes from. *)
Lemma computeClusterKey_cases (st : state) (explicit : bytes) :
  (explicit <> [] /\
   computeClusterKey st explicit =
     ((explicit, None), set_ClusterKey st explicit, [])) \/
  (explicit = [] /\ ClusterKey st <> [] /\
   computeClusterKey st explicit =
     ((ClusterKey st, None), set_ClusterKey st (ClusterKey st), [])) \/
  (explicit = [] /\ ClusterKey st = [] /\
   exists fresh n,
     rand_Read (make_bytes KeyLen) = (fresh, (n, None)) /\
     List.length fresh = KeyLen /\
     computeClusterKey st explicit =
       ((fresh, None), set_ClusterKey st fresh,
        if stdout_IsTerminal then [disclosure fresh] else [])) \/
  (explicit = [] /\ ClusterKey st = [] /\
   exists buf n e,
     rand_Read (make_bytes KeyLen) = (buf, (n, Some e)) /\
     computeClusterKey st explicit =
       (([], Some (fmt_Errorf "reading random source" e)), st, [])).
Proof.
  destruct explicit as [|b key].
  - destruct (ClusterKey st) as [|b key] eqn:Hk.
    + right. right.
      rewrite (computeClusterKey_fresh st Hk).
      pose proof (rand_Read_length (make_bytes KeyLen)) as Hlen.
      destruct (rand_Read (make_bytes KeyLen)) as [fresh [n [e|]]]; simpl in Hlen.
      * right. repeat split. now exists fresh, n, e.
      * left. repeat split. exists fresh, n. repeat split. exact Hlen.
    + right. left. rewrite (computeClusterKey_persisted st Hk).
      repeat split. discriminate.
  - left. split; [discriminate|apply computeClusterKey_explicit].
Qed.

(** X1. [computeClusterKey] fails in one situation only: no explicit key, no
    persisted key, and the random source fails.  A failed call returns the
    nil key, leaves the state as it was and prints nothing. *)
Theorem computeClusterKey_fails_only_without_entropy (st : state) (explicit : bytes) :
  (returned_err (computeClusterKey st explicit) <> None <->
   explicit = [] /\ ClusterKey st = [] /\
   snd (snd (rand_Read (make_bytes KeyLen))) <> None) /\
  (returned_err (computeClusterKey st explicit) <> None ->
   returned_key (computeClusterKey st explicit) = [] /\
   state_after (computeClusterKey st explicit) = st /\
   printed (computeClusterKey st explicit) = []).
Proof.
  destruct (computeClusterKey_cases st explicit)
    as [[Hne Heq]|[[He [Hk Heq]]|[[He [Hk [fresh [n [Hr [_ Heq]]]]]]
                                 |[He [Hk [buf [n [e [Hr Heq]]]]]]]]];
    rewrite Heq; unfold returned_err, returned_key, state_after, printed; simpl.
  - split; [split|]; [intro H; now elim H|intros [H _]; now elim Hne|intro H; now elim H].
  - split; [split|]; [intro H; now elim H|intros [_ [H _]]; now elim Hk|intro H; now elim H].
  - rewrite Hr. simpl.
    split; [split|]; [intro H; now elim H|intros [_ [_ H]]; now elim H|intro H; now elim H].
  - rewrite Hr. simpl. split; [split|]; [intros _|intros _; discriminate|intros _; now repeat split].
    repeat split; [exact He|exact Hk|discriminate].
Qed.

(** X2. The line with the key is printed in one situation only: the key was
    just generated and standard output is a terminal.  A key that was
    given or persisted is never printed, and the line printed carries the
    key that is returned. *)
Theorem computeClusterKey_prints_only_generated_key (st : state) (explicit : bytes) :
  (printed (computeClusterKey st explicit) <> [] <->
   explicit = [] /\ ClusterKey st = [] /\
   snd (snd (rand_Read (make_bytes KeyLen))) = None /\
   stdout_IsTerminal = true) /\
  (printed (computeClusterKey st explicit) = [] \/
   printed (computeClusterKey st explicit) =
     [disclosure (returned_key (computeClusterKey st explicit))]).
Proof.
  destruct (computeClusterKey_cases st explicit)
    as [[Hne Heq]|[[He [Hk Heq]]|[[He [Hk [fresh [n [Hr [_ Heq]]]]]]
                                 |[He [Hk [buf [n [e [Hr Heq]]]]]]]]];
    rewrite Heq; unfold returned_key, printed; simpl.
  - split; [split|now left]; [intro H; now elim H|intros [H _]; now elim Hne].
  - split; [split|now left]; [intro H; now elim H|intros [_ [H _]]; now elim Hk].
  - rewrite Hr. simpl. destruct stdout_IsTerminal.
    + split; [split|now right]; [intros _; now repeat split|intros _; discriminate].
    + split; [split|now left]; [intro H; now elim H|intros [_ [_ [_ H]]]; discriminate H].
  - rewrite Hr. simpl.
    split; [split|now left]; [intro H; now elim H|intros [_ [_ [H _]]]; discriminate H].
Qed.

End BootstrapMore.

Section BootstrapAgain.
Context {P P' : Platform}.

(** X3. A key that was resolved is never empty, and it is found again: the
    next bootstrap on the state left behind, without explicit key and on
    any platform (even one whose random source fails), returns the same
    key, changes nothing and prints nothing. *)
Theorem computeClusterKey_is_stable (st : state) (explicit : bytes) :
  returned_err (@computeClusterKey P st explicit) = None ->
  returned_key (@computeClusterKey P st explicit) <> [] /\
  @computeClusterKey P' (state_after (@computeClusterKey P st explicit)) [] =
    ((returned_key (@computeClusterKey P st explicit), None),
     state_after (@computeClusterKey P st explicit), []).
Proof.
  intro Hok.
  assert (Hstored : ClusterKey (state_after (@computeClusterKey P st explicit)) =
                    returned_key (@computeClusterKey P st explicit)).
  { destruct explicit as [|b key].
    - destruct (ClusterKey st) as [|b key] eqn:Hk.
      + revert Hok. rewrite (computeClusterKey_fresh st Hk).
        destruct (rand_Read (make_bytes KeyLen)) as [fresh [n [e|]]]; simpl;
          [discriminate|reflexivity].
      + now rewrite (computeClusterKey_persisted st Hk).
    - reflexivity. }
  assert (Hne : returned_key (@computeClusterKey P st explicit) <> []).
  { destruct (@computeClusterKey_cases P st explicit)
      as [[Hne Heq]|[[He [Hk Heq]]|[[He [Hk [fresh [n [Hr [Hlen Heq]]]]]]
                                   |[He [Hk [buf [n [e [Hr Heq]]]]]]]]].
    - now rewrite Heq.
    - now rewrite Heq.
    - rewrite Heq. unfold returned_key. simpl.
      intro H. rewrite H in Hlen. discriminate Hlen.
    - rewrite Heq in Hok. discriminate Hok. }
  split; [exact Hne|].
  destruct (returned_key (@computeClusterKey P st explicit)) as [|b key] eqn:Hkey;
    [now elim Hne|].
  rewrite (@computeClusterKey_persisted P' _ b key Hstored).
  destruct (state_after (@computeClusterKey P st explicit)) as [k ns].
  simpl in Hstored. now subst k.
Qed.

End BootstrapAgain.

Section NewFacts.
Context {R : net.Resolver} {ML : Type} {E : memberlist.Engine ML}
        {S : StateStore} {P : Platform}.

Lemma computeClusterKey_success (st : state) (explicit : bytes) :
  returned_err (computeClusterKey st explicit) = None ->
  state_after (computeClusterKey st explicit) =
    {| ClusterKey := returned_key (computeClusterKey st explicit);
       Nodes := Nodes st |}.
Proof.
  destruct (computeClusterKey_cases st explicit)
    as [[Hne Heq]|[[He [Hk Heq]]|[[He [Hk [fresh [n [Hr [_ Heq]]]]]]
                                 |[He [Hk [buf [n [e [Hr Heq]]]]]]]]];
    rewrite Heq; unfold returned_err; simpl; try reflexivity.
  discriminate.
Qed.

(** The state [New] starts from: empty with [init], else whatever
    [loadState] makes of the empty state. *)
Lemma New_run name init key bindAddr bindPort advAddr advPort useIP :
  let st0 := if negb init
             then loadState {| ClusterKey := []; Nodes := [] |} name
             else {| ClusterKey := []; Nodes := [] |} in
  let r := computeClusterKey st0 key in
  (exists e,
     returned_err r = Some e /\
     New name init key bindAddr bindPort advAddr advPort useIP =
       ((None, Some (fmt_Errorf "computing cluster key" e)), printed r)) \/
  (returned_err r = None /\
   exists cfg,
     cfg = newConfig (returned_key r) bindAddr bindPort advAddr advPort useIP /\
     ((exists e,
         memberlist.Create cfg = inr e /\
         New name init key bindAddr bindPort advAddr advPort useIP =
           ((None, Some (fmt_Errorf "creating memberlist" e)), printed r)) \/
      (exists m,
         memberlist.Create cfg = inl m /\
         New name init key bindAddr bindPort advAddr advPort useIP =
           ((Some {| name := name; ml := m; mlConfig := cfg; localNode := None;
                     LocalName := memberlist.Name (memberlist.LocalNode m);
                     cstate := state_after r;
                     events := {| memberlist.capacity := 100 |} |}, None),
            printed r)))).
Proof.
  cbv zeta. unfold New, returned_err, returned_key, state_after, printed.
  destruct (computeClusterKey _ key) as [[[k [e|]] st'] o]; simpl.
  - left. now exists e.
  - right. split; [reflexivity|].
    exists (newConfig k bindAddr bindPort advAddr advPort useIP).
    split; [reflexivity|]. unfold newConfig.
    destruct (memberlist.Create _) as [m|e].
    + right. exists m. now split.
    + left. exists e. now split.
Qed.

(** X4. [New] returns a cluster or an error, never both and never neither; the
    error says which step failed: the key bootstrap or the creation of the
    engine. *)
Theorem New_returns_cluster_or_error name init key bindAddr bindPort advAddr advPort useIP :
  match fst (New name init key bindAddr bindPort advAddr advPort useIP) with
  | (Some _, None) => True
  | (None, Some e) =>
      exists cause,
        e = fmt_Errorf "computing cluster key" cause \/
        e = fmt_Errorf "creating memberlist" cause
  | _ => False
  end.
Proof.
  destruct (New_run name init key bindAddr bindPort advAddr advPort useIP)
    as [[e [_ Heq]]|[_ [cfg [_ [[e [_ Heq]]|[m [_ Heq]]]]]]];
    rewrite Heq; simpl; [exists e; now left|exists e; now right|exact I].
Qed.

(** X5. On the cluster [New] returns, the key given to the engine is the key
    held in the state (so the key saved later is the key in use); a
    non-empty explicit key is that key; the peers are those of the loaded
    state; and what was printed is what the key bootstrap printed. *)
Theorem New_keeps_key_and_peers name init key bindAddr bindPort advAddr advPort useIP
        (c : Cluster ML) (out : list Effect) :
  New name init key bindAddr bindPort advAddr advPort useIP = ((Some c, None), out) ->
  let st0 := if init then {| ClusterKey := []; Nodes := [] |}
             else loadState {| ClusterKey := []; Nodes := [] |} name in
  keyConsistent c /\
  ClusterKey (cstate c) = returned_key (computeClusterKey st0 key) /\
  (key <> [] -> ClusterKey (cstate c) = key) /\
  Nodes (cstate c) = Nodes st0 /\
  out = printed (computeClusterKey st0 key).
Proof.
  intro H. cbv zeta.
  destruct (New_run name init key bindAddr bindPort advAddr advPort useIP)
    as [[e [_ Heq]]|[Hok [cfg [Hkey [[e [_ Heq]]|[m [_ Heq]]]]]]];
    rewrite Heq in H; try discriminate H.
  injection H as <- <-.
  assert (Hst : (if negb init
                 then loadState {| ClusterKey := []; Nodes := [] |} name
                 else {| ClusterKey := []; Nodes := [] |}) =
                (if init then {| ClusterKey := []; Nodes := [] |}
                 else loadState {| ClusterKey := []; Nodes := [] |} name))
    by now destruct init.
  rewrite Hst in *. clear Hst.
  pose proof (computeClusterKey_success _ _ Hok) as Hs.
  unfold keyConsistent. simpl. rewrite Hs, Hkey. simpl.
  repeat split.
  intro Hne. destruct key as [|b key]; [now elim Hne|].
  now rewrite computeClusterKey_explicit.
Qed.

(** X6. With [init], nothing persisted is used: the cluster [New] returns knows
    no peers, and its key is the explicit key or, without one, the key
    just read from the random source, whatever the state store holds. *)
Theorem New_init_starts_afresh name key bindAddr bindPort advAddr advPort useIP
        (c : Cluster ML) (out : list Effect) :
  New name true key bindAddr bindPort advAddr advPort useIP = ((Some c, None), out) ->
  Nodes (cstate c) = [] /\
  ClusterKey (cstate c) =
    match key with
    | [] => fst (rand_Read (make_bytes KeyLen))
    | _ :: _ => key
    end.
Proof.
  intro H.
  destruct (New_run name true key bindAddr bindPort advAddr advPort useIP)
    as [[e [_ Heq]]|[Hok [cfg [Hkey [[e [_ Heq]]|[m [_ Heq]]]]]]];
    rewrite Heq in H; try discriminate H.
  injection H as <- _. simpl in *.
  rewrite (computeClusterKey_success _ _ Hok). simpl. split; [reflexivity|].
  destruct key as [|b key]; [|now rewrite computeClusterKey_explicit].
  revert Hok.
  rewrite (computeClusterKey_fresh {| ClusterKey := []; Nodes := [] |} eq_refl).
  destruct (rand_Read (make_bytes KeyLen)) as [fresh [n [e|]]]; simpl;
    [discriminate|reflexivity].
Qed.

End NewFacts.

(** ** More on Join *)

Section JoinMore.
Context {R : net.Resolver} {ML : Type} {E : memberlist.Engine ML}.



(** X7. The success criterion of [Join], both ways: it returns nil exactly
    when the engine's join call returned no error and either nothing was
    attempted or the engine then counts at least two members. *)
Theorem Join_succeeds_exactly_when (c : Cluster ML) (hosts : list string) :
  result_of (Join hosts c) = None <->
  snd (snd (memberlist.Join (ml c) (joinTargets c hosts))) = None /\
  (joinTargets c hosts = [] \/
   (2 <= memberlist.NumMembers (ml (cluster_of (Join hosts c))))%nat).
Proof.
  rewrite Join_run. cbv zeta. unfold result_of, cluster_of. simpl.
  destruct (snd (snd (memberlist.Join (ml c) (joinTargets c hosts)))) as [e|].
  - split; [discriminate|intros [H _]; discriminate H].
  - destruct (joinTargets c hosts) as [|t ts]; simpl.
    + split; [intros _; split; [reflexivity|now left]|reflexivity].
    + destruct (Nat.ltb _ 2) eqn:Hlt.
      * apply Nat.ltb_lt in Hlt.
        split; [discriminate|intros [_ [H|H]]; [discriminate H|lia]].
      * apply Nat.ltb_ge in Hlt.
        split; [intros _; split; [reflexivity|now right]|reflexivity].
Qed.

(** X8. Targets are attempted in the order given and are not merged: the
    addresses of a list of targets are those of its parts one after the
    other, and whenever each part resolves to some address the one engine
    call of [Join] on the whole list gets the targets [Join] hands over
    for the first part followed by those for the second (so a target given
    twice is attempted twice). *)
Theorem Join_attempts_in_order (c : Cluster ML) (hosts1 hosts2 : list string) :
  let attempts (hosts : list string) :=
    map net.String
        (filter (fun a => negb (atMember (memberlist.Members (ml c)) a))
                (flat_map addressesOf hosts)) in
  resolveHosts (hosts1 ++ hosts2) = resolveHosts hosts1 ++ resolveHosts hosts2 /\
  (resolveHosts hosts1 <> [] -> resolveHosts hosts2 <> [] ->
   joinTargets c (hosts1 ++ hosts2) = joinTargets c hosts1 ++ joinTargets c hosts2 /\
   trace_of (Join hosts1 c) = [MlJoin (attempts hosts1)] /\
   trace_of (Join hosts2 c) = [MlJoin (attempts hosts2)] /\
   trace_of (Join (hosts1 ++ hosts2) c) =
     [MlJoin (attempts hosts1 ++ attempts hosts2)]).
Proof.
  cbv zeta.
  assert (Happ : resolveHosts (hosts1 ++ hosts2) =
                 resolveHosts hosts1 ++ resolveHosts hosts2)
    by (rewrite !resolveHosts_flat_map; apply flat_map_app).
  split; [exact Happ|].
  intros H1 H2.
  rewrite !Join_run. unfold trace_of. simpl.
  rewrite !joinTargets_filter, !joinCandidates_cases, Happ.
  rewrite <- !resolveHosts_flat_map.
  destruct (resolveHosts hosts1) as [|a1 l1]; [now elim H1|].
  destruct (resolveHosts hosts2) as [|a2 l2]; [now elim H2|].
  rewrite <- map_app, <- filter_app. now repeat split.
Qed.


End JoinMore.

(** ** More on Members, Update and Leave *)

Section RunMore.
Context {R : net.Resolver} {ML : Type} {E : memberlist.Engine ML}.

Lemma last_cons {A : Type} (x : A) (l : list A) (d : A) :
  last (x :: l) d = last l x.
Proof.
  revert x d. induction l as [|y l IH]; intros x d; [reflexivity|].
  change (last (x :: y :: l) d) with (last (y :: l) d).
  now rewrite (IH y d), (IH y x).
Qed.

Lemma saved_app (t1 t2 : list Effect) :
  saved (t1 ++ t2) = saved t1 ++ saved t2.
Proof. unfold saved. apply flat_map_app. Qed.

(** What a turn of the goroutine leaves alone. *)
Lemma onEvent_frame (event : memberlist.NodeEvent) (c : Cluster ML) :
  let c' := cluster_of (onEvent event c) in
  name c' = name c /\ ml c' = ml c /\ mlConfig c' = mlConfig c /\
  ClusterKey (cstate c') = ClusterKey (cstate c).
Proof.
  cbv zeta. rewrite onEvent_run. destruct (String.eqb _ _); now repeat split.
Qed.

Lemma Members_frame (deliveries : list Delivery) (c : Cluster ML) :
  let c' := cluster_of (Members deliveries c) in
  name c' = name c /\ mlConfig c' = mlConfig c /\
  ClusterKey (cstate c') = ClusterKey (cstate c).
Proof.
  cbv zeta. revert c. induction deliveries as [|d rest IH]; intro c.
  - now repeat split.
  - destruct (Members_step d rest c) as [Hc _]. rewrite Hc.
    destruct (IH (cluster_of (onEvent (delivered d) (set_ml c (engine_then d)))))
      as [H1 [H2 H3]].
    destruct (onEvent_frame (delivered d) (set_ml c (engine_then d)))
      as [H4 [_ [H5 H6]]].
    rewrite H1, H2, H3, H4, H5, H6. now repeat split.
Qed.

(** X10. What is saved is what was published: over any run of the goroutine,
    the peer lists of the states handed to [save] are the snapshots sent
    on the channel, one for one and in order, and every save is made under
    the cluster's name with the key the state held at the start. *)
Theorem Members_saves_what_it_publishes (deliveries : list Delivery) (c : Cluster ML) :
  map (fun s => Nodes (snd s)) (saved (trace_of (Members deliveries c))) =
    published (trace_of (Members deliveries c)) /\
  Forall (fun s => fst s = name c /\
                   ClusterKey (snd s) = ClusterKey (cstate c))
         (saved (trace_of (Members deliveries c))).
Proof.
  revert c. induction deliveries as [|d rest IH]; intro c.
  - split; [reflexivity|constructor].
  - destruct (Members_step d rest c) as [_ Ht]. rewrite Ht.
    rewrite saved_app, published_app, map_app.
    destruct (IH (cluster_of (onEvent (delivered d) (set_ml c (engine_then d)))))
      as [IH1 IH2].
    destruct (onEvent_frame (delivered d) (set_ml c (engine_then d)))
      as [Hn [_ [_ Hk]]].
    rewrite Hn, Hk in IH2. simpl in IH2. rewrite IH1. clear IH1 Hn Hk Ht.
    rewrite onEvent_run in *.
    destruct (String.eqb _ _); unfold trace_of, cluster_of in *; simpl in *.
    + split; [reflexivity|exact IH2].
    + split; [reflexivity|].
      constructor; [now split|exact IH2].
Qed.

(** X11. The kind of event and the node it names do not reach the snapshot: two
    events about other nodes, handled on the same cluster, leave the same
    cluster, publish the same snapshot and save the same state (they
    differ in the log line only).  The snapshot comes from the roster. *)
Theorem onEvent_ignores_event_details (c : Cluster ML)
        (event1 event2 : memberlist.NodeEvent) :
  memberlist.Name (memberlist.EventNode event1) <> LocalName c ->
  memberlist.Name (memberlist.EventNode event2) <> LocalName c ->
  cluster_of (onEvent event1 c) = cluster_of (onEvent event2 c) /\
  published (trace_of (onEvent event1 c)) = published (trace_of (onEvent event2 c)) /\
  saved (trace_of (onEvent event1 c)) = saved (trace_of (onEvent event2 c)).
Proof.
  intros H1 H2. rewrite !onEvent_run.
  apply String.eqb_neq in H1, H2. rewrite H1, H2. now repeat split.
Qed.

Lemma Members_last_snapshot (deliveries : list Delivery) (c : Cluster ML) :
  Nodes (cstate (cluster_of (Members deliveries c))) =
  last (published (trace_of (Members deliveries c))) (Nodes (cstate c)).
Proof.
  revert c. induction deliveries as [|d rest IH]; intro c; [reflexivity|].
  destruct (Members_step d rest c) as [Hc Ht]. rewrite Hc, Ht, published_app, IH.
  rewrite onEvent_run. destruct (String.eqb _ _).
  - reflexivity.
  - unfold trace_of, cluster_of, published. simpl.
    match goal with
    | |- last ?l _ = _ => destruct l as [|x l']; [reflexivity|]
    end.
    now rewrite !last_cons.
Qed.

Lemma onEventUntilSend_run (event : memberlist.NodeEvent) (c : Cluster ML) :
  onEventUntilSend event c =
  if String.eqb (memberlist.Name (memberlist.EventNode event)) (LocalName c)
  then (tt, c, [])
  else (tt, set_cstate c (recorded c),
        [LogInfo (String.append "node "
                   (String.append (memberlist.Name (memberlist.EventNode event))
                      (String.append " " (eventVerb (memberlist.Event event)))))]).
Proof.
  unfold onEventUntilSend. run_act.
  destruct (String.eqb _ _); reflexivity.
Qed.

(** The whole turn is the turn up to the send, then the send and the save. *)
Lemma onEvent_after_send (event : memberlist.NodeEvent) (c : Cluster ML) :
  cluster_of (onEvent event c) = cluster_of (onEventUntilSend event c) /\
  trace_of (onEvent event c) =
    trace_of (onEventUntilSend event c) ++
    (if String.eqb (memberlist.Name (memberlist.EventNode event)) (LocalName c)
     then []
     else [Publish (snapshot c); SaveState (name c) (recorded c)]).
Proof.
  rewrite onEvent_run, onEventUntilSend_run.
  destruct (String.eqb _ _); now split.
Qed.

Lemma MembersUntil_run (deliveries : list Delivery) (waiting : option Delivery)
      (c : Cluster ML) :
  let c1 := cluster_of (Members deliveries c) in
  MembersUntil deliveries waiting c =
  match waiting with
  | None => (tt, c1, trace_of (Members deliveries c))
  | Some d =>
      (tt,
       cluster_of (onEventUntilSend (delivered d) (set_ml c1 (engine_then d))),
       trace_of (Members deliveries c) ++
       trace_of (onEventUntilSend (delivered d) (set_ml c1 (engine_then d))))
  end.
Proof.
  cbv zeta. unfold MembersUntil, bind, assign, ret, cluster_of, trace_of.
  destruct (Members deliveries c) as [[[] c1] t1]. simpl.
  destruct waiting as [d|]; simpl.
  - destruct (onEventUntilSend (delivered d) _) as [[[] c2] t2]. reflexivity.
  - now rewrite app_nil_r.
Qed.

(** X12. Persist before leave, end to end.  Wherever [Leave] finds the
    goroutine of [Members], after whole turns or with one more turn
    standing at its send, it first saves, under the cluster's name and
    with the key unchanged, a state whose peers are the last snapshot the
    goroutine assigned: the one standing at the send if there is one
    (which was not published), else the last one published, else the peers
    held before the run; only then it leaves and shuts down. *)
Theorem Leave_saves_last_snapshot (deliveries : list Delivery)
        (waiting : option Delivery) (c : Cluster ML) :
  let run := MembersUntil deliveries waiting c in
  let sent := published (trace_of (Members deliveries c)) in
  published (trace_of run) = sent /\
  exists st,
    trace_of (Leave (cluster_of run)) =
      [SaveState (name c) st; MlLeave 10000000000%Z; MlShutdown] /\
    Nodes st = last (sent ++ assignedBy (LocalName c) waiting) (Nodes (cstate c)) /\
    ClusterKey st = ClusterKey (cstate c).
Proof.
  cbv zeta. rewrite MembersUntil_run. cbv zeta.
  destruct (Members_frame deliveries c) as [Hn [_ Hk]].
  destruct (Members_keeps deliveries c) as [Hlocal _].
  pose proof (Members_last_snapshot deliveries c) as Hlast.
  set (c1 := cluster_of (Members deliveries c)) in *.
  set (t1 := trace_of (Members deliveries c)) in *.
  clearbody c1 t1.
  destruct waiting as [d|].
  - rewrite onEventUntilSend_run. unfold assignedBy, forwarded.
    simpl LocalName. rewrite Hlocal.
    destruct (String.eqb _ _); unfold trace_of, cluster_of; simpl.
    + rewrite !app_nil_r. split; [reflexivity|].
      exists (cstate c1). rewrite Leave_run. simpl. rewrite Hn. now repeat split.
    + rewrite published_app, app_nil_r. split; [reflexivity|].
      exists (recorded (set_ml c1 (engine_then d))).
      rewrite Leave_run. simpl. rewrite Hn, Hk, last_last.
      split; [reflexivity|]. split; [|reflexivity].
      rewrite snapshot_filter. simpl. now rewrite Hlocal.
  - unfold trace_of, cluster_of, assignedBy; simpl. rewrite app_nil_r.
    split; [reflexivity|].
    exists (cstate c1). rewrite Leave_run. simpl. rewrite Hn. now repeat split.
Qed.


End RunMore.

Section WiringFacts.
Context {R : net.Resolver} {ML : Type} {E : memberlist.Engine ML}.

Lemma Update_run (node : option common.Node) (c : Cluster ML) :
  let cfg :=
    {| memberlist.ConfigName := memberlist.ConfigName (mlConfig c);
       memberlist.SecretKey := memberlist.SecretKey (mlConfig c);
       memberlist.BindAddr := memberlist.BindAddr (mlConfig c);
       memberlist.BindPort := memberlist.BindPort (mlConfig c);
       memberlist.AdvertiseAddr := memberlist.AdvertiseAddr (mlConfig c);
       memberlist.AdvertisePort := memberlist.AdvertisePort (mlConfig c);
       memberlist.Conflict := Some {| memberlist.delegate_of := node |};
       memberlist.Delegate := Some {| memberlist.delegate_of := node |};
       memberlist.Events := Some {| memberlist.Ch := events c |} |} in
  Update node c =
  (tt,
   {| name := name c;
      ml := fst (memberlist.UpdateNode (ml c) cfg (1 * time.Second)%Z);
      mlConfig := cfg;
      localNode := node;
      LocalName := LocalName c;
      cstate := cstate c;
      events := events c |},
   [MlUpdateNode (1 * time.Second)%Z]).
Proof.
  cbv zeta. unfold Update, mlUpdateNode. run_act.
  destruct (memberlist.UpdateNode _ _ _) as [m e]; reflexivity.
Qed.

(** X14. [Update] wires before it propagates, and the last call wins: the one
    engine call it makes (with one second) already sees a configuration
    whose delegates wrap the new descriptor and whose event sink is the
    cluster's channel; a second [Update] leaves the configuration and the
    local descriptor as if it had been the only one. *)
Theorem Update_wires_then_propagates (c : Cluster ML) (node1 node2 : option common.Node) :
  let c1 := cluster_of (Update node1 c) in
  let c2 := cluster_of (Update node2 c1) in
  trace_of (Update node1 c) = [MlUpdateNode 1000000000%Z] /\
  memberlist.Delegate (mlConfig c1) = Some {| memberlist.delegate_of := node1 |} /\
  memberlist.Conflict (mlConfig c1) = Some {| memberlist.delegate_of := node1 |} /\
  memberlist.Events (mlConfig c1) = Some {| memberlist.Ch := events c |} /\
  ml c1 = fst (memberlist.UpdateNode (ml c) (mlConfig c1) 1000000000%Z) /\
  mlConfig c2 = mlConfig (cluster_of (Update node2 c)) /\
  localNode c2 = node2.
Proof.
  cbv zeta. rewrite !Update_run. now repeat split.
Qed.

(** X15. The shared secret never changes after construction: [Join], [Leave],
    [Update] and the goroutine of [Members] leave both the key in the
    engine's configuration and the key in the state as they were, so a
    cluster on which the two agree keeps them in agreement. *)
Theorem secret_is_immutable (c : Cluster ML) (hosts : list string)
        (node : option common.Node) (deliveries : list Delivery) :
  let same (c' : Cluster ML) :=
    memberlist.SecretKey (mlConfig c') = memberlist.SecretKey (mlConfig c) /\
    ClusterKey (cstate c') = ClusterKey (cstate c) in
  same (cluster_of (Join hosts c)) /\
  same (cluster_of (Leave c)) /\
  same (cluster_of (Update node c)) /\
  same (cluster_of (Members deliveries c)) /\
  (keyConsistent c ->
   keyConsistent (cluster_of (Join hosts c)) /\
   keyConsistent (cluster_of (Leave c)) /\
   keyConsistent (cluster_of (Update node c)) /\
   keyConsistent (cluster_of (Members deliveries c))).
Proof.
  cbv zeta. unfold keyConsistent.
  destruct (Members_frame deliveries c) as [_ [Hcfg Hkey]].
  rewrite Join_run, Leave_run, Update_run, Hcfg, Hkey. simpl.
  now repeat split.
Qed.

End WiringFacts.

(** ** The agent's run loop *)

Section RunLoopFacts.
Context {R : net.Resolver} {ML : Type} {E : memberlist.Engine ML}
        {K : Collaborators}.

Lemma hosts_get_set (k k' : string) (v : list string) (m : hostsMap) :
  hosts_get k (hosts_set k' v m) =
  if String.eqb k k' then Some v else hosts_get k m.
Proof.
  induction m as [|[k0 v0] m IH]; simpl.
  - reflexivity.
  - destruct (String.eqb k' k0) eqn:H0; simpl.
    + apply String.eqb_eq in H0. subst k0.
      now destruct (String.eqb k k').
    + destruct (String.eqb k k0) eqn:H1.
      * apply String.eqb_eq in H1. subst k0.
        rewrite String.eqb_sym in H0. now rewrite H0.
      * exact IH.
Qed.

Lemma hosts_set_keys (k : string) (v : list string) (m : hostsMap) :
  forall x, In x (map fst (hosts_set k v m)) <-> x = k \/ In x (map fst m).
Proof.
  induction m as [|[k0 v0] m IH]; intro x; simpl.
  - split; [intros [<-|[]]; now left|intros [->|[]]; now left].
  - destruct (String.eqb k k0) eqn:H0; simpl.
    + apply String.eqb_eq in H0. subst k0. intuition congruence.
    + rewrite IH. intuition.
Qed.

Lemma hosts_set_NoDup (k : string) (v : list string) (m : hostsMap) :
  NoDup (map fst m) -> NoDup (map fst (hosts_set k v m)).
Proof.
  induction m as [|[k0 v0] m IH]; simpl; intro Hnd.
  - constructor; [intros []|constructor].
  - inversion Hnd as [|? ? Hnotin Hnd']; subst.
    destruct (String.eqb k k0) eqn:H0; simpl.
    + apply String.eqb_eq in H0. subst k0. now constructor.
    + constructor; [|now apply IH].
      intro Hin. apply hosts_set_keys in Hin. destruct Hin as [->|Hin].
      * rewrite String.eqb_refl in H0. discriminate H0.
      * now apply Hnotin.
Qed.

Lemma find_app {A : Type} (f : A -> bool) (l1 l2 : list A) :
  find f (l1 ++ l2) =
  match find f l1 with Some x => Some x | None => find f l2 end.
Proof.
  induction l1 as [|a l1 IH]; simpl; [reflexivity|].
  now destruct (f a).
Qed.

(** The loop over [rawNodes], component by component. *)
Lemma decode_loop (rawNodes : list common.Node)
      (nodes : list DecodedNode) (hosts : hostsMap) (log : list Action) :
  fold_left decodeNode rawNodes (nodes, hosts, log) =
  (nodes ++ decodable rawNodes,
   fold_left enterHost (decodable rawNodes) hosts,
   log ++ map decodeLine rawNodes).
Proof.
  revert nodes hosts log.
  induction rawNodes as [|raw rest IH]; intros nodes hosts log.
  - simpl. now rewrite !app_nil_r.
  - assert (Hstep : decodeNode (nodes, hosts, log) raw =
                    (nodes ++ decodable [raw],
                     fold_left enterHost (decodable [raw]) hosts,
                     log ++ [decodeLine raw])).
    { unfold decodeNode, decodable, decodeLine. simpl.
      destruct (DecodeMeta raw) as [node|e]; simpl; [reflexivity|].
      now rewrite app_nil_r. }
    change (fold_left decodeNode (raw :: rest) (nodes, hosts, log))
      with (fold_left decodeNode rest (decodeNode (nodes, hosts, log) raw)).
    assert (Hcons : decodable (raw :: rest) = decodable [raw] ++ decodable rest).
    { unfold decodable. simpl. now rewrite app_nil_r. }
    rewrite Hstep, IH, Hcons, fold_left_app. simpl map.
    now rewrite <- !app_assoc.
Qed.

Lemma enterHost_get (k : string) (nodes : list DecodedNode) (hosts : hostsMap) :
  hosts_get k (fold_left enterHost nodes hosts) =
  match lastUnder k nodes with
  | Some node => Some [common.Name (descriptor node)]
  | None => hosts_get k hosts
  end.
Proof.
  unfold lastUnder. revert hosts.
  induction nodes as [|node rest IH]; intro hosts; simpl; [reflexivity|].
  rewrite IH, find_app. simpl.
  destruct (find _ (rev rest)); [reflexivity|].
  unfold enterHost. rewrite hosts_get_set.
  now destruct (String.eqb k (overlayName node)).
Qed.

Lemma enterHost_NoDup (nodes : list DecodedNode) (hosts : hostsMap) :
  NoDup (map fst hosts) -> NoDup (map fst (fold_left enterHost nodes hosts)).
Proof.
  revert hosts. induction nodes as [|node rest IH]; intros hosts H; simpl.
  - exact H.
  - apply IH. now apply hosts_set_NoDup.
Qed.

Lemma onNodes_run (cfg : config) (routedNets : list IPNet)
      (rawNodes : list common.Node) :
  onNodes cfg routedNets rawNodes =
  (LogLine InfoLevel "cluster members:\n" :: map decodeLine rawNodes) ++
  (WgSetUp (decodable rawNodes) routedNets ::
   match SetUpInterface (decodable rawNodes) routedNets with
   | Some _ => [LogLine ErrorLevel "could not up interface"; WgDown]
   | None => []
   end) ++
  (if negb (NoEtcHosts cfg)
   then HostsWrite (hostsOf rawNodes) ::
        match WriteEntries (hostsOf rawNodes) with
        | Some _ => [LogLine ErrorLevel "could not write hosts entries"]
        | None => []
        end
   else []) ++
  (if Nat.ltb 0 (String.length (NodeUpdateScript cfg))
   then
     ScriptRun (fst (LookPath (NodeUpdateScript cfg)))
               [fst (LookPath (NodeUpdateScript cfg)); Interface cfg] ::
     match RunCmd (fst (LookPath (NodeUpdateScript cfg)))
                  [fst (LookPath (NodeUpdateScript cfg)); Interface cfg] with
     | Some _ =>
         [LogLine ErrorLevel "error while executing node-update-script %s: %s"]
     | None => []
     end
   else []).
Proof.
  unfold onNodes, hostsOf. rewrite !decode_loop. simpl. reflexivity.
Qed.

Lemma setups_logs (raws : list common.Node) :
  setups (map decodeLine raws) = [] /\
  writes (map decodeLine raws) = [] /\
  scripts (map decodeLine raws) = [] /\
  downs (map decodeLine raws) = 0.
Proof.
  unfold downs.
  induction raws as [|raw rest [H1 [H2 [H3 H4]]]]; simpl; [now repeat split|].
  unfold decodeLine at 1 3 5 7.
  destruct (DecodeMeta raw); simpl; now repeat split.
Qed.

Lemma setups_app (t1 t2 : list Action) : setups (t1 ++ t2) = setups t1 ++ setups t2.
Proof. apply flat_map_app. Qed.
Lemma writes_app (t1 t2 : list Action) : writes (t1 ++ t2) = writes t1 ++ writes t2.
Proof. apply flat_map_app. Qed.
Lemma scripts_app (t1 t2 : list Action) : scripts (t1 ++ t2) = scripts t1 ++ scripts t2.
Proof. apply flat_map_app. Qed.
Lemma downs_app (t1 t2 : list Action) : downs (t1 ++ t2) = downs t1 + downs t2.
Proof. unfold downs. now rewrite filter_app, length_app. Qed.

End RunLoopFacts.

Section RunLoopTheorems.
Context {R : net.Resolver} {ML : Type} {E : memberlist.Engine ML}
        {K : Collaborators}.

Lemma decodable_In (rawNodes : list common.Node) (node : DecodedNode) :
  In node (decodable rawNodes) <->
  exists raw, In raw rawNodes /\ DecodeMeta raw = inl node.
Proof.
  unfold decodable. rewrite in_flat_map. split.
  - intros [raw [Hin Hd]]. exists raw. split; [exact Hin|].
    destruct (DecodeMeta raw) as [n|e]; [|now elim Hd].
    destruct Hd as [->|[]]. reflexivity.
  - intros [raw [Hin Hd]]. exists raw. split; [exact Hin|].
    rewrite Hd. now left.
Qed.

Lemma onNodes_setups (cfg : config) (routedNets : list IPNet)
      (rawNodes : list common.Node) :
  setups (onNodes cfg routedNets rawNodes) = [(decodable rawNodes, routedNets)].
Proof.
  rewrite onNodes_run, !setups_app. simpl.
  destruct (setups_logs rawNodes) as [-> _]. simpl.
  destruct (SetUpInterface _ _); simpl;
    destruct (negb (NoEtcHosts cfg)); simpl;
    try destruct (WriteEntries _); simpl;
    destruct (Nat.ltb 0 _); simpl;
    try destruct (RunCmd _ _); reflexivity.
Qed.

(** X16. Decode isolation: whatever the snapshot holds, the interface is set up
    exactly once, with the nodes whose metadata decodes, in snapshot
    order; a node that fails to decode is left out and stops nothing. *)
Theorem onNodes_sets_up_decodable_nodes (cfg : config) (routedNets : list IPNet)
        (rawNodes : list common.Node) :
  setups (onNodes cfg routedNets rawNodes) = [(decodable rawNodes, routedNets)] /\
  (forall node, In node (decodable rawNodes) <->
                exists raw, In raw rawNodes /\ DecodeMeta raw = inl node) /\
  (forall bad good,
     (forall raw, In raw bad -> exists e, DecodeMeta raw = inr e) ->
     decodable (bad ++ good) = decodable good /\
     decodable (good ++ bad) = decodable good).
Proof.
  split; [|split].
  - apply onNodes_setups.
  - intro node. apply decodable_In.
  - intros bad good Hbad.
    assert (Hnone : decodable bad = []).
    { induction bad as [|raw rest IH]; [reflexivity|].
      unfold decodable. simpl.
      destruct (Hbad raw (or_introl eq_refl)) as [e ->]. simpl.
      apply IH. intros r Hr. apply Hbad. now right. }
    unfold decodable in *. rewrite !flat_map_app, Hnone.
    now rewrite app_nil_r.
Qed.

(** X17. The hosts file: it is written once per snapshot unless [NoEtcHosts] is
    set, and then never.  The map written has one entry per overlay
    address; under an address stands the name of the last decodable node
    of the snapshot with that address, and nothing stands under an
    address no decodable node has. *)
Theorem onNodes_writes_hosts_entries (cfg : config) (routedNets : list IPNet)
        (rawNodes : list common.Node) :
  writes (onNodes cfg routedNets rawNodes) =
    (if NoEtcHosts cfg then [] else [hostsOf rawNodes]) /\
  NoDup (map fst (hostsOf rawNodes)) /\
  (forall k,
     hosts_get k (hostsOf rawNodes) =
     match lastUnder k (decodable rawNodes) with
     | Some node => Some [common.Name (descriptor node)]
     | None => None
     end).
Proof.
  split; [|split].
  - rewrite onNodes_run, !writes_app. simpl.
    destruct (setups_logs rawNodes) as [_ [-> _]]. simpl.
    destruct (SetUpInterface _ _); simpl;
      destruct (NoEtcHosts cfg); simpl;
      try destruct (WriteEntries _); simpl;
      destruct (Nat.ltb 0 _); simpl;
      try destruct (RunCmd _ _); reflexivity.
  - unfold hostsOf. rewrite decode_loop. simpl.
    apply enterHost_NoDup. constructor.
  - intro k. unfold hostsOf. rewrite decode_loop. simpl.
    apply enterHost_get.
Qed.

(** X18. A failed setup does not end the handler: the interface is taken down
    exactly when its setup failed, and the update script is run once
    whenever one is configured, with the path [LookPath] returned (also
    when [LookPath] reported an error) and the interface name as its
    argument; without a configured script none is run. *)
Theorem onNodes_goes_on_after_failed_setup (cfg : config) (routedNets : list IPNet)
        (rawNodes : list common.Node) :
  downs (onNodes cfg routedNets rawNodes) =
    match SetUpInterface (decodable rawNodes) routedNets with
    | Some _ => 1
    | None => 0
    end /\
  scripts (onNodes cfg routedNets rawNodes) =
    match NodeUpdateScript cfg with
    | EmptyString => []
    | String _ _ =>
        [(fst (LookPath (NodeUpdateScript cfg)),
          [fst (LookPath (NodeUpdateScript cfg)); Interface cfg])]
    end.
Proof.
  rewrite onNodes_run. split.
  - rewrite !downs_app. simpl.
    destruct (setups_logs rawNodes) as [_ [_ [_ H]]].
    change (downs (LogLine InfoLevel "cluster members:\n" :: map decodeLine rawNodes))
      with (downs (map decodeLine rawNodes)).
    rewrite H.
    destruct (SetUpInterface _ _); unfold downs; simpl;
      destruct (negb (NoEtcHosts cfg)); simpl;
      try destruct (WriteEntries _); simpl;
      destruct (Nat.ltb 0 _); simpl;
      try destruct (RunCmd _ _); reflexivity.
  - rewrite !scripts_app. simpl.
    destruct (setups_logs rawNodes) as [_ [_ [-> _]]]. simpl.
    destruct (NodeUpdateScript cfg) as [|a s] eqn:Hs; simpl;
      destruct (SetUpInterface _ _); simpl;
      destruct (negb (NoEtcHosts cfg)); simpl;
      try destruct (WriteEntries _); simpl;
      try destruct (RunCmd _ _); reflexivity.
Qed.

Lemma onSignal_run (cfg : config) (c : Cluster ML) :
  onSignal cfg c =
  [LogLine InfoLevel "terminating...";
   ByCluster (SaveState (name c) (cstate c));
   ByCluster (MlLeave 10000000000%Z);
   ByCluster MlShutdown] ++
  (if NoEtcHosts cfg then []
   else HostsWrite [] ::
        match WriteEntries [] with
        | Some _ => [LogLine ErrorLevel "could not remove stale hosts entries"]
        | None => []
        end) ++
  (WgDown ::
   match DownInterface with
   | Some _ => [LogLine ErrorLevel "could not down interface"]
   | None => []
   end) ++
  [Exit 0].
Proof.
  unfold onSignal. rewrite Leave_run. unfold trace_of. simpl.
  now destruct (NoEtcHosts cfg).
Qed.

(** X19. Termination: the handler starts with its log line and ends with
    the exit with status 0, and what it does in between is, in this order
    and whichever step reports an error: the save of the cluster's state,
    the departure with ten seconds, the engine's shutdown, the write of an
    empty hosts file (left out with [NoEtcHosts]) and the interface taken
    down. *)
Theorem onSignal_saves_before_teardown (cfg : config) (c : Cluster ML) :
  deeds (onSignal cfg c) =
    [ByCluster (SaveState (name c) (cstate c));
     ByCluster (MlLeave 10000000000%Z);
     ByCluster MlShutdown] ++
    (if NoEtcHosts cfg then [] else [HostsWrite []]) ++
    [WgDown; Exit 0] /\
  hd_error (onSignal cfg c) = Some (LogLine InfoLevel "terminating...") /\
  (exists before, onSignal cfg c = before ++ [Exit 0]) /\
  setups (onSignal cfg c) = [] /\
  scripts (onSignal cfg c) = [].
Proof.
  rewrite onSignal_run.
  split; [|split; [|split; [|split]]].
  - destruct (NoEtcHosts cfg); [|destruct (WriteEntries [])];
      destruct DownInterface; reflexivity.
  - reflexivity.
  - eexists. rewrite !app_assoc. reflexivity.
  - destruct (NoEtcHosts cfg); [|destruct (WriteEntries [])];
      destruct DownInterface; reflexivity.
  - destruct (NoEtcHosts cfg); [|destruct (WriteEntries [])];
      destruct DownInterface; reflexivity.
Qed.

(** X20. From the goroutine to the interface: a node named like the local node
    never becomes a peer.  Every node set up from a snapshot that
    [Members] published was decoded from a descriptor of that snapshot
    whose name differs from the local name. *)
Theorem onNodes_never_sets_up_self (c : Cluster ML) (deliveries : list Delivery)
        (cfg : config) (routedNets : list IPNet)
        (snapshot : list common.Node) (nodes : list DecodedNode)
        (nets : list IPNet) (node : DecodedNode) :
  In snapshot (published (trace_of (Members deliveries c))) ->
  In (nodes, nets) (setups (onNodes cfg routedNets snapshot)) ->
  In node nodes ->
  exists raw,
    In raw snapshot /\ common.Name raw <> LocalName c /\
    DecodeMeta raw = inl node.
Proof.
  intros Hpub Hset Hnode.
  rewrite Members_published in Hpub.
  apply in_flat_map in Hpub. destruct Hpub as [d [_ Hd]].
  unfold forwarded in Hd.
  destruct (String.eqb _ _); [now elim Hd|].
  destruct Hd as [Hd|[]].
  rewrite onNodes_setups in Hset. destruct Hset as [Hset|[]].
  injection Hset as <- <-.
  apply decodable_In in Hnode. destruct Hnode as [raw [Hin Hdec]].
  exists raw. split; [exact Hin|]. split; [|exact Hdec].
  pose proof (snapshot_withoutName (set_ml c (engine_then d))) as Hw.
  rewrite snapshot_filter in Hw. simpl in Hw. rewrite Hd in Hw.
  now apply Hw.
Qed.

End RunLoopTheorems.

(** ** Runs in the concrete world *)

Import World.

(** A fresh key is read when neither key is given; an exhausted random
    source makes the call fail and leaves the state alone. *)
Example computeClusterKey_runs :
  computeClusterKey blank [] = ((key32, None), set_ClusterKey blank key32, []) /\
  computeClusterKey remembered [x01] =
    (([x01], None), set_ClusterKey remembered [x01], []) /\
  @computeClusterKey exhausted blank [] =
    (([], Some (fmt_Errorf "reading random source" (foreign "entropy"))), blank, []).
Proof. repeat split. Qed.

(** C8 at a state that knows a peer and holds no key. *)
Lemma computeClusterKey_stores_key_run :
  let st := {| ClusterKey := []; Nodes := [toCommon nodeA] |} in
  returned_err (computeClusterKey st []) = None /\
  ClusterKey (state_after (computeClusterKey st [])) = key32 /\
  Nodes (state_after (computeClusterKey st [])) = [toCommon nodeA].
Proof.
  cbv zeta.
  assert (H : returned_err
                (computeClusterKey {| ClusterKey := []; Nodes := [toCommon nodeA] |} [])
              = None) by reflexivity.
  split; [exact H|].
  destruct (computeClusterKey_stores_key _ _ H) as [Hkey Hnodes].
  split; [rewrite Hkey; reflexivity|exact Hnodes].
Defined.

(** C10 at a key of one byte. *)
Lemma computeClusterKey_any_length_run :
  List.length [x01] <> KeyLen /\
  computeClusterKey blank [x01] = (([x01], None), set_ClusterKey blank [x01], []) /\
  computeClusterKey {| ClusterKey := [x01]; Nodes := [] |} [] =
    (([x01], None), {| ClusterKey := [x01]; Nodes := [] |}, []).
Proof.
  assert (Hne : [x01] <> @nil byte) by discriminate.
  destruct (computeClusterKey_any_length Hne) as [Hexplicit Hpersisted].
  split; [vm_compute; discriminate|].
  split; [apply Hexplicit|apply Hpersisted; reflexivity].
Defined.

(** C2 where the only target is answered by the local node itself: the
    engine reports one contact and no error, the roster stays at one. *)
Lemma Join_below_quorum_run :
  let c := cluster alone blank in
  joinTargets c ["127.0.0.1"] = ["127.0.0.1"] /\
  snd (memberlist.Join (ml c) ["127.0.0.1"]) = (1, None) /\
  memberlist.NumMembers (ml (cluster_of (Join ["127.0.0.1"] c))) = 1 /\
  result_of (Join ["127.0.0.1"] c) = Some quorumError.
Proof.
  cbv zeta.
  assert (Hne : joinTargets (cluster alone blank) ["127.0.0.1"] <> [])
    by (vm_compute; discriminate).
  assert (Hlt : (memberlist.NumMembers
                   (ml (cluster_of (Join ["127.0.0.1"] (cluster alone blank)))) < 2)%nat)
    by (vm_compute; lia).
  destruct (Join_below_quorum_fails _ _ Hne Hlt) as [_ [_ Hquorum]].
  split; [reflexivity|]. split; [reflexivity|]. split; [reflexivity|].
  apply Hquorum. reflexivity.
Defined.

(** C3 with 10.0.0.1 the address of a live member and 10.0.0.2 not. *)
Lemma Join_skips_members_run :
  let c := cluster paired blank in
  trace_of (Join ["10.0.0.1"; "10.0.0.2"] c) = [MlJoin ["10.0.0.2"]] /\
  trace_of (Join ["10.0.0.1"] c) = [MlJoin []] /\
  result_of (Join ["10.0.0.1"] c) = None.
Proof.
  cbv zeta.
  destruct (Join_skips_members (cluster paired blank)) as [_ [Htwo Hone]].
  split.
  - apply (Htwo "10.0.0.1" "10.0.0.2" ip1 ip2); reflexivity.
  - destruct (Hone "10.0.0.1" ip1 eq_refl eq_refl) as [Htrace [_ Hnil]].
    split; [exact Htrace|apply Hnil; reflexivity].
Defined.

(** C4 as stated fails: a target is supplied, it is not a literal address
    and its lookup fails, and the candidates are the persisted peers. *)
Lemma Join_uses_persisted_peers_with_targets_supplied :
  let c := cluster paired remembered in
  let hosts := ["gone.mesh.example"] in
  hosts <> [] /\
  resolveHosts hosts = [] /\
  joinCandidates c hosts = map common.Addr (Nodes (cstate c)) /\
  joinCandidates c hosts = [ip2] /\
  Join hosts c =
    (None, set_ml c {| roster := [me; nodeA; nodeB]; answering := answering paired |},
     [MlJoin ["10.0.0.2"]]).
Proof. cbv zeta. split; [discriminate|]. repeat split. Qed.

(** C7 over two deliveries: one about the local node, one about a peer. *)
Lemma Members_excludes_self_run :
  let c := cluster alone blank in
  onEvent (event memberlist.NodeJoin me) c = (tt, c, []) /\
  published (trace_of (onEvent (event memberlist.NodeJoin nodeA) (set_ml c paired)))
    = [[toCommon nodeA]] /\
  published (trace_of (Members
     [ {| delivered := event memberlist.NodeJoin me; engine_then := alone |};
       {| delivered := event memberlist.NodeJoin nodeA; engine_then := paired |};
       {| delivered := event memberlist.NodeUpdate nodeB; engine_then := full |} ] c))
    = [[toCommon nodeA]; [toCommon nodeA; toCommon nodeB]].
Proof.
  cbv zeta.
  destruct (Members_excludes_self (cluster alone blank)) as [Hrun [Hself _]].
  destruct (Members_excludes_self (set_ml (cluster alone blank) paired))
    as [_ [_ Hother]].
  split; [apply Hself; reflexivity|].
  split.
  - destruct (Hother (event memberlist.NodeJoin nodeA)) as [Hpub _].
    + vm_compute. discriminate.
    + rewrite Hpub. reflexivity.
  - destruct (Hrun
      [ {| delivered := event memberlist.NodeJoin me; engine_then := alone |};
        {| delivered := event memberlist.NodeJoin nodeA; engine_then := paired |};
        {| delivered := event memberlist.NodeUpdate nodeB; engine_then := full |} ])
      as [_ Heq].
    rewrite Heq. reflexivity.
Defined.

(** C9 on the cluster [New] builds in this world. *)
Lemma Name_panics_before_Update_run :
  exists c : Cluster Mesh,
    New "wgoverlay" false key32 "0.0.0.0" 7946 "" 7946 false = ((Some c, None), []) /\
    Name c = Panics nilDereference /\
    LocalName c = "host-a" /\
    Name (cluster_of (Update (Some (toCommon me)) c)) = Returns "host-a".
Proof.
  destruct Name_panics_before_Update as [Hnew [Hupdate _]].
  eexists. split; [reflexivity|].
  match goal with
  | |- Name ?c = _ /\ _ =>
      destruct (Hnew "wgoverlay" false key32 "0.0.0.0" 7946%Z "" 7946%Z false c []
                     eq_refl) as [Hpanic Hlocal]
  end.
  split; [exact Hpanic|].
  split; [rewrite Hlocal; reflexivity|].
  apply Hupdate.
Defined.

(** ** More runs in the concrete world *)

(** A key generated once is found again by a bootstrap whose random
    source is exhausted. *)
Lemma computeClusterKey_is_stable_run :
  returned_key (@computeClusterKey platform blank []) = key32 /\
  @computeClusterKey exhausted (state_after (@computeClusterKey platform blank [])) [] =
    ((key32, None), {| ClusterKey := key32; Nodes := [] |}, []).
Proof.
  assert (Hok : returned_err (@computeClusterKey platform blank []) = None)
    by reflexivity.
  destruct (@computeClusterKey_is_stable platform exhausted blank [] Hok)
    as [_ Hagain].
  split; [reflexivity|]. rewrite Hagain. reflexivity.
Defined.

(** [New] over a store that holds a state: the persisted key goes to the
    engine and stays in the state, with the persisted peers. *)
Lemma New_keeps_key_and_peers_run :
  exists c : Cluster Mesh,
    @New Mesh engine remembering platform
         "wgoverlay" false [] "0.0.0.0" 7946 "" 7946 false = ((Some c, None), []) /\
    memberlist.SecretKey (mlConfig c) = repeat x07 32 /\
    ClusterKey (cstate c) = repeat x07 32 /\
    Nodes (cstate c) = [toCommon nodeB].
Proof.
  eexists. split; [reflexivity|].
  match goal with
  | |- memberlist.SecretKey (mlConfig ?c) = _ /\ _ =>
      destruct (@New_keeps_key_and_peers Mesh engine remembering platform
                  "wgoverlay" false [] "0.0.0.0" 7946%Z "" 7946%Z false c []
                  eq_refl) as [Hcons [Hkey [_ [Hnodes _]]]]
  end.
  unfold keyConsistent in Hcons.
  split; [rewrite Hcons, Hkey; reflexivity|].
  split; [rewrite Hkey; reflexivity|rewrite Hnodes; reflexivity].
Defined.

(** [New] with [init] over the same store: nothing of the stored state is
    used; the key is the one just generated. *)
Lemma New_init_starts_afresh_run :
  exists c : Cluster Mesh,
    @New Mesh engine remembering platform
         "wgoverlay" true [] "0.0.0.0" 7946 "" 7946 false = ((Some c, None), []) /\
    Nodes (cstate c) = [] /\
    ClusterKey (cstate c) = key32.
Proof.
  eexists. split; [reflexivity|].
  match goal with
  | |- Nodes (cstate ?c) = _ /\ _ =>
      destruct (@New_init_starts_afresh Mesh engine remembering platform
                  "wgoverlay" [] "0.0.0.0" 7946%Z "" 7946%Z false c []
                  eq_refl) as [Hnodes Hkey]
  end.
  split; [exact Hnodes|rewrite Hkey; reflexivity].
Defined.

(** The same target twice is attempted twice. *)
Lemma Join_attempts_in_order_run :
  joinTargets (cluster paired blank) (["10.0.0.2"] ++ ["10.0.0.2"]) =
    ["10.0.0.2"; "10.0.0.2"] /\
  trace_of (Join ["10.0.0.2"] (cluster paired blank)) = [MlJoin ["10.0.0.2"]] /\
  trace_of (Join (["10.0.0.2"] ++ ["10.0.0.2"]) (cluster paired blank)) =
    [MlJoin ["10.0.0.2"; "10.0.0.2"]].
Proof.
  destruct (Join_attempts_in_order (cluster paired blank) ["10.0.0.2"] ["10.0.0.2"])
    as [_ Happ].
  destruct Happ as [Htargets [Hone [_ Hboth]]];
    [vm_compute; discriminate|vm_compute; discriminate|].
  split; [rewrite Htargets; reflexivity|].
  split; [rewrite Hone; reflexivity|rewrite Hboth; reflexivity].
Defined.


(** An event saying [node-a] left, while the roster still holds it, sends
    the same snapshot as an event saying [node-b] joined. *)
Lemma onEvent_ignores_event_details_run :
  let c := set_ml (cluster alone blank) paired in
  published (trace_of (onEvent (event memberlist.NodeLeave nodeA) c)) =
    [[toCommon nodeA]] /\
  published (trace_of (onEvent (event memberlist.NodeJoin nodeB) c)) =
    [[toCommon nodeA]].
Proof.
  cbv zeta.
  destruct (onEvent_ignores_event_details
              (set_ml (cluster alone blank) paired)
              (event memberlist.NodeLeave nodeA)
              (event memberlist.NodeJoin nodeB)) as [_ [Hpub _]].
  - vm_compute. discriminate.
  - vm_compute. discriminate.
  - split; [reflexivity|]. rewrite <- Hpub. reflexivity.
Defined.


(** The snapshot of the gossiping mesh holds [node-a] and [node-b]; only
    [node-a] decodes and is set up, the local node is not among them, and
    the hosts file gets the one entry. *)
Lemma onNodes_never_sets_up_self_run :
  let deliveries :=
    [ {| delivered := event memberlist.NodeJoin nodeA; engine_then := gossiping |} ] in
  let snapshot := [peer "node-a" ip1 ip1; peer "node-b" ip2 [x01]] in
  published (trace_of (Members deliveries (cluster alone blank))) = [snapshot] /\
  setups (onNodes settings [] snapshot) = [([decodedA], [])] /\
  writes (onNodes settings [] snapshot) = [[("10.0.0.1", ["node-a"])]] /\
  exists raw,
    In raw snapshot /\ common.Name raw <> "host-a" /\
    DecodeMeta raw = inl decodedA.
Proof.
  cbv zeta.
  split; [reflexivity|]. split; [reflexivity|]. split; [reflexivity|].
  apply (onNodes_never_sets_up_self
           (cluster alone blank)
           [ {| delivered := event memberlist.NodeJoin nodeA;
                engine_then := gossiping |} ]
           settings [] [peer "node-a" ip1 ip1; peer "node-b" ip2 [x01]]
           [decodedA] [] decodedA).
  - left. reflexivity.
  - left. reflexivity.
  - left. reflexivity.
Defined.

(** [Leave] while the first turn stands at its send: nothing was published,
    and the state saved already holds [node-a]. *)
Lemma Leave_saves_last_snapshot_run :
  let waiting :=
    Some {| delivered := event memberlist.NodeJoin nodeA; engine_then := paired |} in
  let run := MembersUntil [] waiting (cluster alone remembered) in
  published (trace_of run) = [] /\
  trace_of (Leave (cluster_of run)) =
    [SaveState "wgoverlay" {| ClusterKey := key32; Nodes := [toCommon nodeA] |};
     MlLeave 10000000000%Z; MlShutdown].
Proof.
  cbv zeta.
  destruct (Leave_saves_last_snapshot
              []
              (Some {| delivered := event memberlist.NodeJoin nodeA;
                       engine_then := paired |})
              (cluster alone remembered)) as [Hsent [st [Htrace [Hnodes Hkey]]]].
  split; [exact Hsent|]. rewrite Htrace.
  destruct st as [k ns]. simpl in Hnodes, Hkey. rewrite Hnodes, Hkey.
  reflexivity.
Defined.
